(** * Verification of the release-artifact uploader [upload_to_r2.py]

    The development embeds the script [.github/scripts/upload_to_r2.py] in
    Rocq: its pure helpers ([get_content_type], the object keys, the chunked
    SHA-256 of [calculate_sha256]) as functions, and its effectful part
    ([upload_to_r2], [update_metadata_json], [main]) in a small monad that
    threads a trace of observable events and propagates Python exceptions.
    The environment variables are a finite map; the file system is a finite
    map from normalised paths to nodes, read through [os.stat] and [open].

    The Python standard library and boto3 are not part of the repository.
    They are modelled after their documented behaviour, each in a module of
    its own: [Pathlib] (str, .name and .suffix of PurePosixPath), [Hashlib] (SHA-256,
    FIPS 180-4, with the streaming init/update/hexdigest interface),
    [Datetime] (datetime.isoformat) and [Json] (the values json.loads
    returns, with the item access rules of the Python objects they are). *)

From Stdlib Require Import ZArith Ascii String List Lia.
From Stdlib.Strings Require Import Byte.
From stdpp Require Import base strings list gmap.

Open Scope string_scope.
Open Scope list_scope.
Open Scope Z_scope.

(** ** Python strings *)

Module PyStr.

(** [s.rfind(c)] for a one-character [c]: the highest index at which [c]
    occurs in [s], or [-1]. The scan keeps the last hit seen so far. *)
Fixpoint rfind_from (c : ascii) (s : string) (i : Z) (acc : Z) : Z :=
  match s with
  | EmptyString => acc
  | String a s' => rfind_from c s' (i + 1) (if Ascii.eqb a c then i else acc)
  end.

Definition rfind (c : ascii) (s : string) : Z := rfind_from c s 0 (-1).

(** [s[i:]] for [0 <= i]. *)
Fixpoint drop (n : nat) (s : string) : string :=
  match n, s with
  | O, _ => s
  | S n', String _ s' => drop n' s'
  | S _, EmptyString => EmptyString
  end.

Definition len (s : string) : Z := Z.of_nat (String.length s).

(** [str.lower] on the ASCII range; bytes of multi-byte UTF-8 sequences are
    left as they are. *)
Definition lower_ascii (a : ascii) : ascii :=
  let n := nat_of_ascii a in
  if ((65 <=? n)%nat && (n <=? 90)%nat)%bool then ascii_of_nat (n + 32) else a.

Fixpoint lower (s : string) : string :=
  match s with
  | EmptyString => EmptyString
  | String a s' => String (lower_ascii a) (lower s')
  end.

(** [c in s] for a one-character [c]. *)
Fixpoint has_char (c : ascii) (s : string) : bool :=
  match s with
  | EmptyString => false
  | String a s' => (Ascii.eqb a c || has_char c s')%bool
  end.

(** [s.startswith(p)]. *)
Fixpoint startswith (p s : string) : bool :=
  match p, s with
  | EmptyString, _ => true
  | String a p', String b s' => (Ascii.eqb a b && startswith p' s')%bool
  | String _ _, EmptyString => false
  end.

(** [p in s]: [p] occurs in [s] as a substring. *)
Fixpoint contains (p s : string) : bool :=
  (startswith p s ||
   match s with
   | EmptyString => false
   | String _ s' => contains p s'
   end)%bool.

(** [s.split(c)] for a one-character separator: the current field is
    accumulated in [cur]. *)
Fixpoint split_from (c : ascii) (cur : string) (s : string) : list string :=
  match s with
  | EmptyString => [cur]
  | String a s' =>
      if Ascii.eqb a c then cur :: split_from c EmptyString s'
      else split_from c (cur +:+ String a EmptyString) s'
  end.

Definition split (c : ascii) (s : string) : list string :=
  split_from c EmptyString s.

End PyStr.

(** ** pathlib, POSIX flavour *)

(** [str], [name] and [suffix] of PurePosixPath, as CPython defines them up
    to version 3.13. From 3.14 on a name that ends in a dot has the suffix
    ["."] instead of none; for such names the latest key and the content
    type are given here as the earlier versions compute them. *)

Module Pathlib.

(** The parts of a path below its root: the fields between slashes, with
    empty fields and ["."] dropped, as PurePosixPath parsing does. *)
Definition kept (p : string) : bool :=
  negb (String.eqb p "" || String.eqb p ".").

Definition parts (path : string) : list string :=
  List.filter kept (PyStr.split "/"%char path).

(** [Path(path).name]: the final part, or [''] when there is none. *)
Definition name (path : string) : string := List.last (parts path) "".

(** The suffix of a file name:
<<
    i = name.rfind('.')
    if 0 < i < len(name) - 1: return name[i:]
    else: return ''
>> *)
Definition suffix_of_name (nm : string) : string :=
  let i := PyStr.rfind "."%char nm in
  if ((0 <? i) && (i <? PyStr.len nm - 1))%bool
  then PyStr.drop (Z.to_nat i) nm
  else "".

(** [Path(path).suffix]. *)
Definition suffix (path : string) : string := suffix_of_name (name path).

(** The root of a path: ["/"] when it starts with a slash, ["//"] when it
    starts with exactly two, none otherwise. *)
Definition root (path : string) : string :=
  if (PyStr.startswith "//" path && negb (PyStr.startswith "///" path))%bool
  then "//"
  else if PyStr.startswith "/" path then "/" else "".

(** [sep.join(l)] *)
Fixpoint join (sep : string) (l : list string) : string :=
  match l with
  | [] => ""
  | [x] => x
  | x :: l' => x +:+ sep +:+ join sep l'
  end.

(** [str(Path(path))]: the root and the parts joined by slashes, and ["."]
    for a path without root and parts. *)
Definition to_str (path : string) : string :=
  match parts path with
  | [] => if String.eqb (root path) "" then "." else root path
  | ps => root path +:+ join "/" ps
  end.

End Pathlib.

(** ** Content type *)

(** [d.get(k)] on a dict with string keys, kept as the list of its items in
    insertion order. *)
Fixpoint dict_get {V : Type} (k : string) (d : list (string * V)) : option V :=
  match d with
  | [] => None
  | (k', v) :: d' => if String.eqb k' k then Some v else dict_get k d'
  end.

Definition content_types : list (string * string) :=
  [ (".dmg", "application/x-apple-diskimage");
    (".exe", "application/x-msdownload");
    (".msi", "application/x-msi");
    (".zip", "application/zip");
    (".tar.gz", "application/gzip");
    (".json", "application/json") ].

(** Get content type based on file extension. *)
Definition get_content_type (filename : string) : string :=
  let ext := PyStr.lower (Pathlib.suffix filename) in
  default "application/octet-stream" (dict_get ext content_types).


(** ** hashlib.sha256 *)

Module Hashlib.

(** 32-bit words are integers in [0, 2^32); additions wrap around. *)
Definition wrap (x : Z) : Z := x mod 2 ^ 32.
Definition add32 (x y : Z) : Z := wrap (x + y).
Definition rotr (n x : Z) : Z :=
  Z.lor (Z.shiftr x n) (wrap (Z.shiftl x (32 - n))).
Definition not32 (x : Z) : Z := Z.lxor x 0xffffffff.

Definition Ch (x y z : Z) : Z := Z.lxor (Z.land x y) (Z.land (not32 x) z).
Definition Maj (x y z : Z) : Z :=
  Z.lxor (Z.lxor (Z.land x y) (Z.land x z)) (Z.land y z).
Definition bsig0 (x : Z) : Z := Z.lxor (Z.lxor (rotr 2 x) (rotr 13 x)) (rotr 22 x).
Definition bsig1 (x : Z) : Z := Z.lxor (Z.lxor (rotr 6 x) (rotr 11 x)) (rotr 25 x).
Definition ssig0 (x : Z) : Z := Z.lxor (Z.lxor (rotr 7 x) (rotr 18 x)) (Z.shiftr x 3).
Definition ssig1 (x : Z) : Z := Z.lxor (Z.lxor (rotr 17 x) (rotr 19 x)) (Z.shiftr x 10).

(** The round constants (FIPS 180-4, 4.2.2) and the initial hash value
    (5.3.3), in decimal. *)
Definition K256 : list Z :=
  [ 1116352408; 1899447441; 3049323471; 3921009573; 961987163; 1508970993;
    2453635748; 2870763221; 3624381080; 310598401; 607225278; 1426881987;
    1925078388; 2162078206; 2614888103; 3248222580; 3835390401; 4022224774;
    264347078; 604807628; 770255983; 1249150122; 1555081692; 1996064986;
    2554220882; 2821834349; 2952996808; 3210313671; 3336571891; 3584528711;
    113926993; 338241895; 666307205; 773529912; 1294757372; 1396182291;
    1695183700; 1986661051; 2177026350; 2456956037; 2730485921; 2820302411;
    3259730800; 3345764771; 3516065817; 3600352804; 4094571909; 275423344;
    430227734; 506948616; 659060556; 883997877; 958139571; 1322822218;
    1537002063; 1747873779; 1955562222; 2024104815; 2227730452; 2361852424;
    2428436474; 2756734187; 3204031479; 3329325298 ].

Definition H0 : list Z :=
  [ 1779033703; 3144134277; 1013904242; 2773480762;
    1359893119; 2600822924; 528734635; 1541459225 ].

Definition byteZ (b : byte) : Z := Z.of_N (Byte.to_N b).
Definition Zbyte (z : Z) : byte := default x00 (Byte.of_N (Z.to_N (z mod 256))).

(** Big-endian bytes of a word and back. *)
Definition word_of_bytes (b0 b1 b2 b3 : byte) : Z :=
  Z.lor (Z.lor (Z.shiftl (byteZ b0) 24) (Z.shiftl (byteZ b1) 16))
        (Z.lor (Z.shiftl (byteZ b2) 8) (byteZ b3)).

Definition bytes_of_word (w : Z) : list byte :=
  [ Zbyte (Z.shiftr w 24); Zbyte (Z.shiftr w 16); Zbyte (Z.shiftr w 8); Zbyte w ].

Fixpoint words_of_bytes (l : list byte) : list Z :=
  match l with
  | b0 :: b1 :: b2 :: b3 :: l' => word_of_bytes b0 b1 b2 b3 :: words_of_bytes l'
  | _ => []
  end.

(** The message schedule: [w] holds W_0 .. W_(t-1); each step appends W_t. *)
Fixpoint schedule (n : nat) (w : list Z) : list Z :=
  match n with
  | O => w
  | S n' =>
      let t := length w in
      let W (i : nat) := nth (t - i) w 0 in
      schedule n' (w ++ [add32 (add32 (ssig1 (W 2%nat)) (W 7%nat))
                                (add32 (ssig0 (W 15%nat)) (W 16%nat))])
  end.

Record regs := Regs { ra : Z; rb : Z; rc : Z; rd : Z; re : Z; rf : Z; rg : Z; rh : Z }.

Definition round (r : regs) (kw : Z * Z) : regs :=
  let '(k, w) := kw in
  let t1 := add32 (add32 (add32 (rh r) (bsig1 (re r))) (Ch (re r) (rf r) (rg r))) (add32 k w) in
  let t2 := add32 (bsig0 (ra r)) (Maj (ra r) (rb r) (rc r)) in
  Regs (add32 t1 t2) (ra r) (rb r) (rc r) (add32 (rd r) t1) (re r) (rf r) (rg r).

Definition regs_of (h : list Z) : regs :=
  Regs (nth 0 h 0) (nth 1 h 0) (nth 2 h 0) (nth 3 h 0)
       (nth 4 h 0) (nth 5 h 0) (nth 6 h 0) (nth 7 h 0).

Definition list_of (r : regs) : list Z :=
  [ra r; rb r; rc r; rd r; re r; rf r; rg r; rh r].

(** One application of the compression function to a 64-byte block. *)
Definition compress (h : list Z) (block : list byte) : list Z :=
  let w := schedule 48 (words_of_bytes block) in
  let r := fold_left round (combine K256 w) (regs_of h) in
  List.map (fun p => add32 (fst p) (snd p)) (combine h (list_of r)).

(** Splitting a byte string into its 64-byte blocks and the rest, which is
    shorter than a block. *)
Fixpoint blocks_fuel (fuel : nat) (l : list byte) : list (list byte) * list byte :=
  match fuel with
  | O => ([], l)
  | S fuel' =>
      if (length l <? 64)%nat then ([], l)
      else let '(bs, r) := blocks_fuel fuel' (skipn 64 l) in
           (firstn 64 l :: bs, r)
  end.

Definition split_blocks (l : list byte) : list (list byte) * list byte :=
  blocks_fuel (length l) l.

(** The padding of a message of [n] bytes: a 1 bit, zeros up to 56 modulo
    64, and the bit length as a 64-bit big-endian integer. *)
Definition be64 (n : Z) : list byte :=
  List.map (fun i => Zbyte (Z.shiftr n (8 * i))) [7; 6; 5; 4; 3; 2; 1; 0].

Definition padding (n : Z) : list byte :=
  x80 :: repeat x00 (Z.to_nat ((55 - n) mod 64)) ++ be64 (8 * n).

(** *** The hash object *)

Record sha256_obj := Sha256Obj {
  st_h : list Z;          (* chaining value *)
  st_buf : list byte;     (* bytes not yet compressed, fewer than 64 *)
  st_len : Z;             (* bytes consumed so far *)
}.

(** A whole block, and the invariant of a hash object: its buffer never
    holds one. *)
Definition full (b : list byte) : Prop := length b = 64%nat.
Definition buffered (s : sha256_obj) : Prop := (length (st_buf s) < 64)%nat.

(** [hashlib.sha256()] *)
Definition new : sha256_obj := Sha256Obj H0 [] 0.

(** [h.update(data)]: compress the full blocks of buffer ++ data, keep the
    rest in the buffer. *)
Definition update (s : sha256_obj) (data : list byte) : sha256_obj :=
  let '(bs, r) := split_blocks (st_buf s ++ data) in
  Sha256Obj (fold_left compress bs (st_h s)) r (st_len s + Z.of_nat (length data)).

(** [h.digest()]: pad the buffered rest and compress it. *)
Definition digest (s : sha256_obj) : list byte :=
  let '(bs, _) := split_blocks (st_buf s ++ padding (st_len s)) in
  List.concat (List.map bytes_of_word (fold_left compress bs (st_h s))).

Definition hex_digit (n : Z) : ascii :=
  if n <? 10 then ascii_of_nat (48 + Z.to_nat n) else ascii_of_nat (87 + Z.to_nat n).

Fixpoint hex (l : list byte) : string :=
  match l with
  | [] => ""
  | b :: l' =>
      String (hex_digit (byteZ b / 16)) (String (hex_digit (byteZ b mod 16)) (hex l'))
  end.

(** [h.hexdigest()] *)
Definition hexdigest (s : sha256_obj) : string := hex (digest s).

(** *** SHA-256 of a whole message (FIPS 180-4, 6.2) *)
Definition sha256 (msg : list byte) : list byte :=
  let padded := msg ++ padding (Z.of_nat (length msg)) in
  List.concat (List.map bytes_of_word
                 (fold_left compress (fst (split_blocks padded)) H0)).

Definition sha256_hex (msg : list byte) : string := hex (sha256 msg).

End Hashlib.


(** ** datetime *)

Module Datetime.

(** A naive datetime object, as [datetime.utcnow()] returns it. *)
Record datetime := Build_datetime {
  year : N; month : N; day : N;
  hour : N; minute : N; second : N;
  microsecond : N;
}.

(** The fields of a datetime object lie in these ranges, so each of them
    fits the width it is printed at. *)
Definition well_formed (d : datetime) : Prop :=
  (1 <= year d <= 9999 /\ 1 <= month d <= 12 /\ 1 <= day d <= 31 /\
   hour d < 24 /\ minute d < 60 /\ second d < 60 /\ microsecond d < 1000000)%N.

Definition digit (n : N) : ascii := ascii_of_N (48 + n mod 10).

(** ["%0<w>d" % n] for a field that fits in [w] digits. *)
Fixpoint zfill (w : nat) (n : N) : string :=
  match w with
  | O => ""
  | S w' => zfill w' (n / 10)%N +:+ String (digit n) ""
  end.

(** [d.isoformat()] with the default separator and [timespec='auto']:
    ["%04d-%02d-%02dT%02d:%02d:%02d"], followed by [".%06d"] of the
    microseconds when they are not zero. A naive datetime has no UTC
    offset part. *)
Definition isoformat (d : datetime) : string :=
  zfill 4 (year d) +:+ "-" +:+ zfill 2 (month d) +:+ "-" +:+ zfill 2 (day d)
  +:+ "T" +:+ zfill 2 (hour d) +:+ ":" +:+ zfill 2 (minute d) +:+ ":"
  +:+ zfill 2 (second d)
  +:+ (if N.eqb (microsecond d) 0 then "" else "." +:+ zfill 6 (microsecond d)).

End Datetime.


(** ** Exceptions *)

(** The exceptions that occur; all of them are subclasses of [Exception]. *)
Inductive exn :=
| NoSuchKey                    (* s3_client.exceptions.NoSuchKey *)
| KeyError (key : string)
| TypeError (msg : string)
| IsADirectoryError (path : string)
| FileNotFoundError (path : string)
| NotADirectoryError (path : string)
| OtherError (msg : string).   (* any other Exception, with its str() *)

Definition is_NoSuchKey (e : exn) : bool :=
  match e with NoSuchKey => true | _ => false end.

(** [str(e)] *)
Definition exn_str (e : exn) : string :=
  match e with
  | NoSuchKey =>
      "An error occurred (NoSuchKey) when calling the GetObject operation: The specified key does not exist."
  | KeyError k => "'" +:+ k +:+ "'"
  | TypeError m => m
  | IsADirectoryError p => "[Errno 21] Is a directory: '" +:+ p +:+ "'"
  | FileNotFoundError p => "[Errno 2] No such file or directory: '" +:+ p +:+ "'"
  | NotADirectoryError p => "[Errno 20] Not a directory: '" +:+ p +:+ "'"
  | OtherError m => m
  end.

(** ** JSON values *)

Module Json.

(** What [json.loads] returns: None, bool, int, float, str, list, dict.
    A dict keeps its keys in insertion order. *)
#[warnings="-register-all"] Inductive json :=
| JNull
| JBool (b : bool)
| JInt (z : Z)
| JFloat (repr : string)
| JStr (s : string)
| JList (l : list json)
| JDict (d : list (string * json)).

(** [d[k] = v] on a dict: an existing key keeps its place and gets the new
    value, a new key goes to the end. *)
Fixpoint dict_set {V : Type} (k : string) (v : V) (d : list (string * V))
  : list (string * V) :=
  match d with
  | [] => [(k, v)]
  | (k', v') :: d' =>
      if String.eqb k' k then (k, v) :: d' else (k', v') :: dict_set k v d'
  end.

Definition type_name (j : json) : string :=
  match j with
  | JNull => "NoneType" | JBool _ => "bool" | JInt _ => "int"
  | JFloat _ => "float" | JStr _ => "str" | JList _ => "list" | JDict _ => "dict"
  end.

(** [obj[k]] for a string [k]. *)
Definition getitem (obj : json) (k : string) : exn + json :=
  match obj with
  | JDict d =>
      match dict_get k d with
      | Some v => inr v
      | None => inl (KeyError k)
      end
  | JList _ => inl (TypeError "list indices must be integers or slices, not str")
  | JStr _ => inl (TypeError "string indices must be integers, not 'str'")
  | _ => inl (TypeError ("'" +:+ type_name obj +:+ "' object is not subscriptable"))
  end.

(** [obj[k] = v] for a string [k]: the object after the assignment. *)
Definition setitem (obj : json) (k : string) (v : json) : exn + json :=
  match obj with
  | JDict d => inr (JDict (dict_set k v d))
  | JList _ => inl (TypeError "list indices must be integers or slices, not str")
  | _ => inl (TypeError ("'" +:+ type_name obj +:+ "' object does not support item assignment"))
  end.

End Json.
Import Json.

(** ** The world outside the script *)

Import Datetime.

(** A path of the file system names a regular file with its content, or a
    directory. *)
Inductive fs_node :=
| RegularFile (content : list byte)
| Directory (st_size : Z).

(** The file system holds its nodes by the normal form that pathlib gives
    their path (relative paths are relative to the working directory of the
    script). Names that the system would identify beyond that ([..],
    symbolic links) are keys of their own. The current directory and the
    root are directories in every file system. *)
Record file_system := FileSystem { nodes : gmap string fs_node }.

Definition node_at (fs : file_system) (key : string) : option fs_node :=
  if (String.eqb key "." || String.eqb key "/" || String.eqb key "//")%bool
  then Some (Directory 4096)
  else nodes fs !! key.

(** A path string that ends in a slash or in a field ["."] names a
    directory or nothing. *)
Definition wants_directory (p : string) : bool :=
  negb (Pathlib.kept (List.last (PyStr.split "/"%char p) "")).

(** [os.stat(p)] on a path string: the empty string names nothing, and a
    regular file is not found under a name that asks for a directory. The
    script passes [p] as it got it to [open], and its normal form, through
    the path object, to [exists], [stat] and [upload_file]. Failures of
    other kinds (permissions, a regular file in the middle of the path) are
    not modelled. *)
Definition os_stat (fs : file_system) (p : string) : exn + fs_node :=
  if String.eqb p "" then inl (FileNotFoundError p)
  else
    match node_at fs (Pathlib.to_str p) with
    | None => inl (FileNotFoundError p)
    | Some (RegularFile content) =>
        if wants_directory p then inl (NotADirectoryError p)
        else inr (RegularFile content)
    | Some (Directory sz) => inr (Directory sz)
    end.

(** [fs !! p]: the node that the system finds at the path string [p], if
    it finds one. *)
#[global] Instance file_system_lookup : Lookup string fs_node file_system :=
  fun p fs =>
    match os_stat fs p with
    | inr node => Some node
    | inl _ => None
    end.

(** The body of a GetObject response, as
    [json.loads(response['Body'].read().decode('utf-8'))] sees it: reading,
    decoding or parsing it raises, or it is the text of a JSON value. *)
Inductive body :=
| BodyInvalid (e : exn)
| BodyJson (j : json).

(** Everything the script reads from outside: the environment variables, the
    file system, the successive readings of the UTC clock, and what the
    storage service answers to each call ([None]: the call succeeds). *)
Record World := Build_World {
  environ : gmap string string;
  files : file_system;
  clock : nat -> datetime;
  client_raises : option exn;
  upload_file_raises : string -> option exn;           (* by object key *)
  get_object_result : string -> exn + body;            (* by object key *)
  put_object_raises : string -> json -> option exn;    (* by object key, body *)
}.

(** What the script does that can be observed from outside, in order. Of the
    console output only the errors and warnings are recorded, each with the
    text that is handed to [print]; the progress lines (sizes, key names,
    URL hints) are not. The body of a
    PutObject is recorded as the JSON document that [json.dumps] serialises. *)
Inductive event :=
| EvPrint (text : string)
| EvTraceback (e : exn)
| EvClient (endpoint_url access_key secret_key : option string)
| EvUploadFile (file : string) (bucket : option string) (key : string)
               (content_type : string) (metadata : list (string * string))
               (ok : bool)
| EvGetObject (bucket : option string) (key : string)
| EvPutObject (bucket : option string) (key : string) (doc : json)
              (content_type : string) (ok : bool).

Record state := Build_state {
  trace : list event;   (* oldest first *)
  ticks : nat;          (* readings of the clock so far *)
}.

Definition initial : state := Build_state [] 0.

(** ** Computations with exceptions *)

Inductive outcome (A : Type) :=
| Ok (a : A)
| Raise (e : exn).
Arguments Ok {A} a.
Arguments Raise {A} e.

Definition M (A : Type) : Type := World -> state -> outcome A * state.

#[global] Instance M_ret : MRet M := fun A a _ s => (Ok a, s).

#[global] Instance M_bind : MBind M := fun A B f m w s =>
  match m w s with
  | (Ok a, s') => f a w s'
  | (Raise e, s') => (Raise e, s')
  end.

Definition raise {A : Type} (e : exn) : M A := fun _ s => (Raise e, s).

(** [try: m  except Exception as e: handler e] *)
Definition try_except {A : Type} (m : M A) (handler : exn -> M A) : M A :=
  fun w s =>
    match m w s with
    | (Ok a, s') => (Ok a, s')
    | (Raise e, s') => handler e w s'
    end.

Definition lift {A : Type} (r : exn + A) : M A :=
  match r with
  | inl e => raise e
  | inr a => mret a
  end.

Definition emit (e : event) : M unit :=
  fun _ s => (Ok tt, Build_state (trace s ++ [e]) (ticks s)).

Definition print (text : string) : M unit := emit (EvPrint text).

(** The string ["\n"]. *)
Definition newline : string := String "010"%char EmptyString.

(** [os.environ.get(k)] *)
Definition getenv (k : string) : M (option string) :=
  fun w s => (Ok (environ w !! k), s).

(** [datetime.utcnow()] *)
Definition utcnow : M datetime :=
  fun w s => (Ok (clock w (ticks s)), Build_state (trace s) (S (ticks s))).

(** [Path(p).exists()]: the path object is looked for under its normal
    form. *)
Definition path_exists (p : string) : M bool :=
  fun w s => (Ok (bool_decide (is_Some (files w !! Pathlib.to_str p))), s).

(** [Path(p).stat().st_size] *)
Definition stat_size (p : string) : M Z :=
  fun w s =>
    match os_stat (files w) (Pathlib.to_str p) with
    | inr (RegularFile content) => (Ok (Z.of_nat (length content)), s)
    | inr (Directory sz) => (Ok sz, s)
    | inl e => (Raise e, s)
    end.

(** What [open(p, "rb")] gives on the string [p] as it is: the bytes that
    successive reads will deliver, or the exception. *)
Definition opened (fs : file_system) (p : string) : exn + list byte :=
  match os_stat fs p with
  | inr (RegularFile content) => inr content
  | inr (Directory _) => inl (IsADirectoryError p)
  | inl e => inl e
  end.

Definition open_rb (p : string) : M (list byte) :=
  fun w s =>
    match opened (files w) p with
    | inr content => (Ok content, s)
    | inl e => (Raise e, s)
    end.

(** [boto3.client('s3', endpoint_url=..., aws_access_key_id=..., ...)] *)
Definition boto3_client (endpoint access_key secret_key : option string) : M unit :=
  fun w s =>
    match client_raises w with
    | Some e => (Raise e, s)
    | None => emit (EvClient endpoint access_key secret_key) w s
    end.

(** [s3_client.upload_file(file, bucket, key, ExtraArgs=...)] *)
Definition s3_upload_file (file : string) (bucket : option string) (key : string)
    (content_type : string) (metadata : list (string * string)) : M unit :=
  fun w s =>
    match upload_file_raises w key with
    | None => emit (EvUploadFile file bucket key content_type metadata true) w s
    | Some e =>
        match emit (EvUploadFile file bucket key content_type metadata false) w s with
        | (_, s') => (Raise e, s')
        end
    end.

(** [s3_client.get_object(Bucket=bucket, Key=key)] *)
Definition s3_get_object (bucket : option string) (key : string) : M body :=
  fun w s =>
    match emit (EvGetObject bucket key) w s with
    | (_, s') =>
        match get_object_result w key with
        | inl e => (Raise e, s')
        | inr b => (Ok b, s')
        end
    end.

(** [json.loads(response['Body'].read().decode('utf-8'))] *)
Definition json_loads (response : body) : M json :=
  match response with
  | BodyInvalid e => raise e
  | BodyJson j => mret j
  end.

(** [s3_client.put_object(Bucket=bucket, Key=key, Body=json.dumps(doc, indent=2)
    .encode('utf-8'), ContentType=content_type)] *)
Definition s3_put_object (bucket : option string) (key : string) (doc : json)
    (content_type : string) : M unit :=
  fun w s =>
    match put_object_raises w key doc with
    | None => emit (EvPutObject bucket key doc content_type true) w s
    | Some e =>
        match emit (EvPutObject bucket key doc content_type false) w s with
        | (_, s') => (Raise e, s')
        end
    end.

(** ** The script *)

(** Truth value of a variable that holds a string or [None]. *)
Definition truthy (v : option string) : bool :=
  match v with
  | Some s => negb (String.eqb s "")
  | None => false
  end.

(** A string or [None] inside an f-string. *)
Definition fmt (v : option string) : string := default "None" v.

(** [str(b).lower()] *)
Definition str_lower_bool (b : bool) : string := if b then "true" else "false".

(** [datetime.utcnow().isoformat() + 'Z'] *)
Definition timestamp (now : datetime) : string := isoformat now +:+ "Z".

(** The loop [for byte_block in iter(lambda: f.read(4096), b"")] over the
    bytes [f] still unread: it ends at the first empty read. [fuel] bounds
    the number of reads. *)
Fixpoint read_loop (fuel : nat) (sha256_hash : Hashlib.sha256_obj) (f : list byte)
  : Hashlib.sha256_obj :=
  match fuel with
  | O => sha256_hash
  | S fuel' =>
      match firstn 4096 f with
      | [] => sha256_hash
      | byte_block =>
          read_loop fuel' (Hashlib.update sha256_hash byte_block) (skipn 4096 f)
      end
  end.

(** One read per byte and the final empty read are always enough. *)
Definition calculate_sha256 (file_path : string) : M string :=
  f ← open_rb file_path;
  mret (Hashlib.hexdigest (read_loop (S (length f)) Hashlib.new f)).

(** The manifest a run starts from when there is none to read. *)
Definition fresh_shell (version : string) : M json :=
  now ← utcnow;
  mret (JDict [ ("version", JStr version);
                ("release_date", JStr (timestamp now));
                ("downloads", JDict []) ]).

(** The entry of this run in the [downloads] map. *)
Definition download_info (endpoint bucket : option string) (latest_key : string)
    (file_size : Z) (file_hash : string) (signed notarized : bool)
    (platform_arch : string) : list (string * json) :=
  let info := [ ("url", JStr (fmt endpoint +:+ "/" +:+ fmt bucket +:+ "/" +:+ latest_key));
                ("size", JInt file_size);
                ("sha256", JStr file_hash);
                ("signed", JBool signed) ] in
  if PyStr.contains "macos" platform_arch
  then dict_set "notarized" (JBool notarized) info
  else info.

Definition update_metadata_json (bucket : option string) (version platform_arch
    latest_key : string) (file_size : Z) (file_hash : string)
    (signed notarized : bool) : M unit :=
  let metadata_key := "metadata/latest.json" in
  (* Try to download existing metadata *)
  metadata ← try_except
      (response ← s3_get_object bucket metadata_key;
       json_loads response)
      (fun e =>
         if is_NoSuchKey e then fresh_shell version
         else
           _ ← print ("   ⚠️  Warning: Could not read existing metadata: " +:+ exn_str e);
           fresh_shell version);
  (* Update version and release date *)
  metadata ← lift (setitem metadata "version" (JStr version));
  now ← utcnow;
  metadata ← lift (setitem metadata "release_date" (JStr (timestamp now)));
  (* Update platform-specific info *)
  endpoint ← getenv "R2_ENDPOINT";
  let info := download_info endpoint bucket latest_key file_size file_hash
                signed notarized platform_arch in
  (* metadata["downloads"][platform_arch] = info: the dict under "downloads"
     is changed in place, so the manifest holds the changed dict at the same
     key. *)
  downloads ← lift (getitem metadata "downloads");
  downloads ← lift (setitem downloads platform_arch (JDict info));
  metadata ← lift (setitem metadata "downloads" downloads);
  (* Upload updated metadata *)
  try_except
    (s3_put_object bucket metadata_key metadata "application/json")
    (fun e => print ("   ⚠️  Warning: Could not update metadata: " +:+ exn_str e)).

(** The two object keys. *)
Definition versioned_key (version platform arch filename : string) : string :=
  "releases/v" +:+ version +:+ "/" +:+ (platform +:+ "-" +:+ arch) +:+ "/" +:+ filename.

Definition latest_filename (platform arch suffix : string) : string :=
  "Ami-latest-" +:+ (platform +:+ "-" +:+ arch) +:+ suffix.

Definition latest_key (platform arch suffix : string) : string :=
  "releases/latest/" +:+ (platform +:+ "-" +:+ arch) +:+ "/"
  +:+ latest_filename platform arch suffix.

(** The metadata attached to both uploads. *)
Definition object_metadata (version platform arch : string) (now : datetime)
    (file_hash : string) (signed notarized : bool) (commit_sha : option string)
  : list (string * string) :=
  let metadata := [ ("version", version);
                    ("platform", platform);
                    ("arch", arch);
                    ("build-date", timestamp now);
                    ("sha256", file_hash);
                    ("signed", str_lower_bool signed) ] in
  let metadata :=
    if String.eqb platform "macos"
    then dict_set "notarized" (str_lower_bool notarized) metadata
    else metadata in
  if truthy commit_sha
  then dict_set "commit-sha" (fmt commit_sha) metadata
  else metadata.

Definition upload_to_r2 (file_path version platform arch : string)
    (signed notarized : bool) (commit_sha : option string) : M bool :=
  (* Get R2 credentials from environment *)
  access_key ← getenv "R2_ACCESS_KEY_ID";
  secret_key ← getenv "R2_SECRET_ACCESS_KEY";
  endpoint ← getenv "R2_ENDPOINT";
  bucket ← getenv "R2_BUCKET";
  if negb (forallb truthy [access_key; secret_key; endpoint; bucket]) then
    _ ← print "Error: Missing R2 credentials in environment variables";
    _ ← print "Required: R2_ACCESS_KEY_ID, R2_SECRET_ACCESS_KEY, R2_ENDPOINT, R2_BUCKET";
    mret false
  else
  (* Validate file exists *)
  file_exists ← path_exists file_path;
  if negb file_exists then
    _ ← print ("Error: File not found: " +:+ file_path);
    mret false
  else
  (* Get file info *)
  file_size ← stat_size file_path;
  file_hash ← calculate_sha256 file_path;
  let filename := Pathlib.name file_path in
  (* Create S3 client *)
  _ ← boto3_client endpoint access_key secret_key;
  let platform_arch := platform +:+ "-" +:+ arch in
  (* Prepare metadata *)
  now ← utcnow;
  let metadata := object_metadata version platform arch now file_hash
                    signed notarized commit_sha in
  let content_type := get_content_type filename in
  (* Object keys *)
  let vkey := versioned_key version platform arch filename in
  let lkey := latest_key platform arch (Pathlib.suffix file_path) in
  try_except
    (_ ← s3_upload_file (Pathlib.to_str file_path) bucket vkey content_type metadata;
     _ ← s3_upload_file (Pathlib.to_str file_path) bucket lkey content_type metadata;
     _ ← update_metadata_json bucket version platform_arch lkey file_size
           file_hash signed notarized;
     mret true)
    (fun e =>
       _ ← print (newline +:+ "❌ Error uploading to R2: " +:+ exn_str e);
       _ ← emit (EvTraceback e);
       mret false).

(** ** The command line *)

(** [--platform] and [--arch] take one of two choices each. *)
Inductive Platform := macos | windows.
Inductive Arch := arm64 | x64.

Definition platform_str (p : Platform) : string :=
  match p with macos => "macos" | windows => "windows" end.

Definition arch_str (a : Arch) : string :=
  match a with arm64 => "arm64" | x64 => "x64" end.

(** The namespace [parser.parse_args()] returns. *)
Record Args := Build_Args {
  arg_file : string;
  arg_version : string;
  arg_platform : Platform;
  arg_arch : Arch;
  arg_signed : bool;
  arg_notarized : bool;
  arg_commit_sha : option string;
}.

(** A run of the script on parsed arguments: its exit status and what it
    did. An exception that nothing catches ends the interpreter with a
    traceback and status 1. *)
Definition main (args : Args) (w : World) : Z * list event :=
  match upload_to_r2 (arg_file args) (arg_version args)
          (platform_str (arg_platform args)) (arch_str (arg_arch args))
          (arg_signed args) (arg_notarized args) (arg_commit_sha args) w initial with
  | (Ok success, s) => (if success then 0 else 1, trace s)
  | (Raise e, s) => (1, trace s ++ [EvTraceback e])
  end.

Definition exit_code (args : Args) (w : World) : Z := fst (main args w).
Definition events (args : Args) (w : World) : list event := snd (main args w).

(** ** Reading a trace *)

(** The calls to the storage service, without their payload. *)
Inductive s3_call :=
| Upload (key : string) (ok : bool)
| GetManifest (key : string)
| PutManifest (key : string) (ok : bool).

Definition call_of (e : event) : option s3_call :=
  match e with
  | EvUploadFile _ _ key _ _ ok => Some (Upload key ok)
  | EvGetObject _ key => Some (GetManifest key)
  | EvPutObject _ key _ _ ok => Some (PutManifest key ok)
  | _ => None
  end.

Definition s3_calls (tr : list event) : list s3_call := omap call_of tr.

Definition is_manifest_call (c : s3_call) : bool :=
  match c with
  | Upload _ _ => false
  | GetManifest _ | PutManifest _ _ => true
  end.


(** The documents handed to PutObject. *)
Definition put_doc (e : event) : option json :=
  match e with
  | EvPutObject _ _ doc _ _ => Some doc
  | _ => None
  end.

Definition put_docs (tr : list event) : list json := omap put_doc tr.

(** The metadata attached to the uploads. *)
Definition upload_metadata (e : event) : option (list (string * string)) :=
  match e with
  | EvUploadFile _ _ _ _ md _ => Some md
  | _ => None
  end.

(** ** The shapes the specification names *)

(** A pattern for a string: [d] stands for a decimal digit, every other
    character for itself. *)
Definition is_digit (c : ascii) : bool :=
  let n := N_of_ascii c in ((48 <=? n) && (n <=? 57))%N.

Fixpoint matches (pat s : string) : bool :=
  match pat, s with
  | EmptyString, EmptyString => true
  | String p pat', String c s' =>
      ((if Ascii.eqb p "d" then is_digit c else Ascii.eqb p c) && matches pat' s')%bool
  | _, _ => false
  end.

(** ISO-8601 UTC time with a trailing Z, to the second and to the
    microsecond. *)
Definition iso_seconds_Z : string := "dddd-dd-ddTdd:dd:ddZ".
Definition iso_micros_Z : string := "dddd-dd-ddTdd:dd:dd.ddddddZ".

(** The Release Manifest shape of the specification: top-level [version] and
    [release_date] strings and a [downloads] map whose entries hold [url],
    [size], [sha256], [signed] and, optionally, [notarized]. *)
Definition is_str (o : option json) : bool :=
  match o with Some (JStr _) => true | _ => false end.
Definition is_int (o : option json) : bool :=
  match o with Some (JInt _) => true | _ => false end.
Definition is_bool (o : option json) : bool :=
  match o with Some (JBool _) => true | _ => false end.
Definition is_bool_or_absent (o : option json) : bool :=
  match o with Some (JBool _) | None => true | _ => false end.

Definition entry_shape (j : json) : bool :=
  match j with
  | JDict e =>
      is_str (dict_get "url" e) && is_int (dict_get "size" e) &&
      is_str (dict_get "sha256" e) && is_bool (dict_get "signed" e) &&
      is_bool_or_absent (dict_get "notarized" e)
  | _ => false
  end.

Definition manifest_shape (j : json) : bool :=
  match j with
  | JDict m =>
      is_str (dict_get "version" m) && is_str (dict_get "release_date" m) &&
      match dict_get "downloads" m with
      | Some (JDict d) => forallb (fun kv => entry_shape (snd kv)) d
      | _ => false
      end
  | _ => false
  end.

(** ** Sample runs *)

Module Sample.

Definition env : gmap string string :=
  list_to_map [ ("R2_ACCESS_KEY_ID", "AK"); ("R2_SECRET_ACCESS_KEY", "SK");
                ("R2_ENDPOINT", "https://acct.r2.example"); ("R2_BUCKET", "ami") ].

Definition dmg : string := "dist/Ami-1.1.0-macos-arm64.dmg".

Definition fs : file_system :=
  FileSystem {[ dmg := RegularFile (list_byte_of_string "abc") ]}.

(** 2024-01-02 03:04:05.123456 *)
Definition noon : datetime := Build_datetime 2024 1 2 3 4 5 123456.

Definition args : Args := Build_Args dmg "1.1.0" macos arm64 false true None.

(** The same arguments with another path. *)
Definition args_at (path : string) : Args :=
  Build_Args path "1.1.0" macos arm64 false true None.

(** The prior manifest of the specification's example. *)
Definition prior : json :=
  JDict [ ("version", JStr "1.0.0");
          ("release_date", JStr "t0");
          ("downloads",
           JDict [ ("windows-x64",
                    JDict [ ("url", JStr "u1"); ("size", JInt 10);
                            ("sha256", JStr "h1"); ("signed", JBool true) ]) ]) ].

(** A world in which every call succeeds and GetObject answers [r]. *)
Definition world (r : exn + body) : World :=
  Build_World env fs (fun _ => noon) None (fun _ => None) (fun _ => r)
    (fun _ _ => None).

(** The same, but PutObject fails. *)
Definition world_put_fails (r : exn + body) : World :=
  Build_World env fs (fun _ => noon) None (fun _ => None) (fun _ => r)
    (fun _ _ => Some (OtherError "AccessDenied")).

(** The same as [world], but the upload to [key] fails. *)
Definition world_upload_fails (key : string) : World :=
  Build_World env fs (fun _ => noon) None
    (fun k => if String.eqb k key then Some (OtherError "EndpointConnectionError") else None)
    (fun _ => inl NoSuchKey) (fun _ _ => None).

(** A world without the bucket name, and one without the file. *)
Definition world_no_bucket : World :=
  Build_World (delete "R2_BUCKET" env) fs (fun _ => noon) None (fun _ => None)
    (fun _ => inl NoSuchKey) (fun _ _ => None).


(** Manifests that are JSON but not of the manifest shape. *)
Definition empty_object : json := JDict [].

Definition garbage_entry : json :=
  JDict [ ("downloads", JDict [ ("windows-x64", JStr "garbage") ]) ].

End Sample.

(** ** The runs of the script *)

(** The four required configuration values, as the script reads them. *)
Definition credentials (w : World) : list (option string) :=
  [ environ w !! "R2_ACCESS_KEY_ID"; environ w !! "R2_SECRET_ACCESS_KEY";
    environ w !! "R2_ENDPOINT"; environ w !! "R2_BUCKET" ].

Definition manifest_key : string := "metadata/latest.json".

Section Runs.

Variable args : Args.
Variable w : World.

Let file := arg_file args.
Let version := arg_version args.
Let platform := platform_str (arg_platform args).
Let arch := arch_str (arg_arch args).
Let bucket := environ w !! "R2_BUCKET".

(** What a run computes before it talks to the storage service. *)
Definition run_versioned_key : string :=
  versioned_key version platform arch (Pathlib.name file).

Definition run_latest_key : string :=
  latest_key platform arch (Pathlib.suffix file).

Definition run_metadata (content : list byte) : list (string * string) :=
  object_metadata version platform arch (clock w 0)
    (Hashlib.sha256_hex content) (arg_signed args) (arg_notarized args)
    (arg_commit_sha args).

Definition client_event : event :=
  EvClient (environ w !! "R2_ENDPOINT") (environ w !! "R2_ACCESS_KEY_ID")
    (environ w !! "R2_SECRET_ACCESS_KEY").

Definition upload_event (content : list byte) (key : string) (ok : bool) : event :=
  EvUploadFile (Pathlib.to_str file) bucket key (get_content_type (Pathlib.name file))
    (run_metadata content) ok.

Definition failure_report (e : exn) : list event :=
  [ EvPrint (newline +:+ "❌ Error uploading to R2: " +:+ exn_str e); EvTraceback e ].

(** The state in which the manifest update starts. *)
Definition uploaded (content : list byte) : state :=
  Build_state [ client_event; upload_event content run_versioned_key true;
                upload_event content run_latest_key true ] 1.

Definition run_update (content : list byte) : outcome unit * state :=
  update_metadata_json bucket version (platform +:+ "-" +:+ arch) run_latest_key
    (Z.of_nat (length content)) (Hashlib.sha256_hex content)
    (arg_signed args) (arg_notarized args) w (uploaded content).

(** The exit status and the trace of a run, by how far the run gets. *)
Inductive run_shape : Z -> list event -> Prop :=
| RunMissingConfig :
    forallb truthy (credentials w) = false ->
    run_shape 1
      [ EvPrint "Error: Missing R2 credentials in environment variables";
        EvPrint "Required: R2_ACCESS_KEY_ID, R2_SECRET_ACCESS_KEY, R2_ENDPOINT, R2_BUCKET" ]
| RunMissingFile :
    forallb truthy (credentials w) = true ->
    files w !! Pathlib.to_str file = None ->
    run_shape 1 [ EvPrint ("Error: File not found: " +:+ file) ]
| RunUnreadable e :
    forallb truthy (credentials w) = true ->
    is_Some (files w !! Pathlib.to_str file) ->
    opened (files w) file = inl e ->
    run_shape 1 [ EvTraceback e ]
| RunNoClient content e :
    forallb truthy (credentials w) = true ->
    files w !! file = Some (RegularFile content) ->
    client_raises w = Some e ->
    run_shape 1 [ EvTraceback e ]
| RunVersionedFails content e :
    forallb truthy (credentials w) = true ->
    files w !! file = Some (RegularFile content) ->
    client_raises w = None ->
    upload_file_raises w run_versioned_key = Some e ->
    run_shape 1
      (client_event :: upload_event content run_versioned_key false
         :: failure_report e)
| RunLatestFails content e :
    forallb truthy (credentials w) = true ->
    files w !! file = Some (RegularFile content) ->
    client_raises w = None ->
    upload_file_raises w run_versioned_key = None ->
    upload_file_raises w run_latest_key = Some e ->
    run_shape 1
      (client_event :: upload_event content run_versioned_key true
         :: upload_event content run_latest_key false :: failure_report e)
| RunManifestUpdated content s' :
    forallb truthy (credentials w) = true ->
    files w !! file = Some (RegularFile content) ->
    client_raises w = None ->
    upload_file_raises w run_versioned_key = None ->
    upload_file_raises w run_latest_key = None ->
    run_update content = (Ok tt, s') ->
    run_shape 0 (trace s')
| RunManifestRaises content e s' :
    forallb truthy (credentials w) = true ->
    files w !! file = Some (RegularFile content) ->
    client_raises w = None ->
    upload_file_raises w run_versioned_key = None ->
    upload_file_raises w run_latest_key = None ->
    run_update content = (Raise e, s') ->
    run_shape 1 (trace s' ++ failure_report e).

End Runs.

Definition upload_key_of (c : s3_call) : option string :=
  match c with
  | Upload key _ => Some key
  | _ => None
  end.

(** ** Further readings of documents and strings *)

(** The manifest a run writes when it starts from the dict [m] whose
    [downloads] is the dict [d]. *)
Definition merged_manifest (version release_date platform_arch : string)
    (info : list (string * json)) (m d : list (string * json)) : json :=
  JDict (dict_set "downloads" (JDict (dict_set platform_arch (JDict info) d))
           (dict_set "release_date" (JStr release_date)
              (dict_set "version" (JStr version) m))).

(** The items of the fresh shell. *)
Definition shell_items (version release_date : string) : list (string * json) :=
  [ ("version", JStr version); ("release_date", JStr release_date);
    ("downloads", JDict []) ].

Fixpoint all_chars (P : ascii -> bool) (s : string) : bool :=
  match s with
  | EmptyString => true
  | String c s' => (P c && all_chars P s')%bool
  end.

(** [0-9a-f] *)
Definition is_lower_hex (c : ascii) : bool :=
  let n := N_of_ascii c in
  (((48 <=? n) && (n <=? 57)) || ((97 <=? n) && (n <=? 102)))%N%bool.

(** ** Sample runs that fail before the uploads *)

Module Faults.

(** The endpoint is set, but empty. *)
Definition world_empty_endpoint : World :=
  Build_World (<["R2_ENDPOINT" := ""]> Sample.env) Sample.fs (fun _ => Sample.noon)
    None (fun _ => None) (fun _ => inl NoSuchKey) (fun _ _ => None).

(** The path names a directory. *)
Definition world_directory : World :=
  Build_World Sample.env (FileSystem {[ Sample.dmg := Directory 4096 ]})
    (fun _ => Sample.noon)
    None (fun _ => None) (fun _ => inl NoSuchKey) (fun _ _ => None).

(** The client cannot be constructed. *)
Definition world_no_client : World :=
  Build_World Sample.env Sample.fs (fun _ => Sample.noon)
    (Some (OtherError "Invalid endpoint: ftp://acct")) (fun _ => None)
    (fun _ => inl NoSuchKey) (fun _ _ => None).

(** GetObject fails for a reason other than a missing key, and PutObject
    fails too. *)
Definition world_storage_down : World :=
  Build_World Sample.env Sample.fs (fun _ => Sample.noon) None (fun _ => None)
    (fun _ => inl (OtherError "timeout")) (fun _ _ => Some (OtherError "AccessDenied")).

End Faults.

(** * Proofs *)

(** ** Tactics *)

(** [String.append] does not reduce under [simpl]; this does the steps that
    the shape of its first argument allows. *)
Ltac str_simpl :=
  repeat match goal with
         | |- context [String.append (String ?a ?s) ?t] =>
             change (String.append (String a s) t) with (String a (String.append s t))
         | |- context [String.append EmptyString ?t] =>
             change (String.append EmptyString t) with t
         end;
  simpl.

(** Unfolding the monad and the primitives of a run. *)
Ltac unfold_run :=
  cbv beta iota zeta delta
    [mbind M_bind mret M_ret try_except lift raise print emit getenv utcnow
     json_loads s3_get_object s3_put_object s3_upload_file boto3_client
     path_exists stat_size fresh_shell];
  cbn [trace ticks fst snd].

Ltac reduce_run := cbn [trace ticks fst snd app negb initial].

(** One step of a run: decide the next thing the world or the data
    decides, and reduce. *)
Ltac run_case :=
  match goal with
  | |- context [match get_object_result ?w ?k with _ => _ end] =>
      destruct (get_object_result w k) as [?e|[?e|?j]] eqn:?
  | |- context [is_NoSuchKey ?e] => destruct (is_NoSuchKey e) eqn:?
  | |- context [match setitem ?a ?k ?v with _ => _ end] =>
      destruct (setitem a k v) as [?e|?m] eqn:?
  | |- context [match getitem ?a ?k with _ => _ end] =>
      destruct (getitem a k) as [?e|?m] eqn:?
  | |- context [match put_object_raises ?w ?k ?d with _ => _ end] =>
      destruct (put_object_raises w k d) as [?e|] eqn:?
  end;
  cbn [setitem getitem dict_get dict_set String.eqb Ascii.eqb Bool.eqb];
  unfold_run.

Ltac run := unfold_run; repeat run_case.

(** * Strings *)


Section StringFacts.


Lemma append_assoc (a b c : string) : (a +:+ b) +:+ c = a +:+ (b +:+ c).
Proof. induction a as [|x a IH]; str_simpl; [reflexivity | now rewrite IH]. Qed.

Lemma append_nil_r (a : string) : a +:+ "" = a.
Proof. induction a as [|x a IH]; str_simpl; [reflexivity | now rewrite IH]. Qed.

Lemma length_append (a b : string) :
  String.length (a +:+ b) = (String.length a + String.length b)%nat.
Proof. induction a as [|x a IH]; str_simpl; [reflexivity | now rewrite IH]. Qed.

Lemma drop_append (a b : string) : PyStr.drop (String.length a) (a +:+ b) = b.
Proof. induction a as [|x a IH]; str_simpl; [now destruct b | exact IH]. Qed.

Variable c : ascii.

Lemma rfind_from_absent (s : string) (i acc : Z) :
  PyStr.has_char c s = false -> PyStr.rfind_from c s i acc = acc.
Proof.
  revert i acc. induction s as [|a s IH]; intros i acc H; simpl in *.
  - reflexivity.
  - apply orb_false_iff in H as [Ha Hs]. rewrite Ha. now apply IH.
Qed.

(** The scan returns the position of the last occurrence. *)
Lemma rfind_from_last (x t : string) (i acc : Z) :
  PyStr.has_char c t = false ->
  PyStr.rfind_from c (x +:+ String c t) i acc = i + Z.of_nat (String.length x).
Proof.
  intros Ht. revert i acc. induction x as [|a x IH]; intros i acc; str_simpl.
  - rewrite Ascii.eqb_refl, rfind_from_absent by assumption. lia.
  - rewrite IH. lia.
Qed.

(** A string that holds [c] splits at the last occurrence of [c]. *)
Lemma last_occurrence (s : string) :
  PyStr.has_char c s = true ->
  exists x t, s = x +:+ String c t /\ PyStr.has_char c t = false.
Proof.
  induction s as [|a s IH]; simpl; intros H; [discriminate|].
  destruct (PyStr.has_char c s) eqn:Hs.
  - destruct (IH eq_refl) as (x & t & -> & Ht). now exists (String a x), t.
  - rewrite orb_false_r in H. apply Ascii.eqb_eq in H as ->. now exists "", s.
Qed.

End StringFacts.

(** * File names *)

Section Suffix.

Lemma suffix_of_name_ext (stem ext : string) :
  stem <> "" -> ext <> "" -> PyStr.has_char "." ext = false ->
  Pathlib.suffix_of_name (stem +:+ String "." ext) = String "." ext.
Proof.
  intros Hstem Hext Hdot. unfold Pathlib.suffix_of_name, PyStr.rfind, PyStr.len.
  rewrite rfind_from_last by assumption.
  rewrite length_append. simpl String.length.
  assert (0 < String.length stem)%nat by (destruct stem; simpl; [congruence | lia]).
  assert (0 < String.length ext)%nat by (destruct ext; simpl; [congruence | lia]).
  replace (0 <? 0 + Z.of_nat (String.length stem)) with true
    by (symmetry; apply Z.ltb_lt; lia).
  replace (0 + Z.of_nat (String.length stem) <?
           Z.of_nat (String.length stem + S (String.length ext)) - 1) with true
    by (symmetry; apply Z.ltb_lt; lia).
  simpl andb. cbv iota.
  replace (Z.to_nat (0 + Z.of_nat (String.length stem))) with (String.length stem) by lia.
  apply drop_append.
Qed.

(** Whatever the name, its suffix is empty or a dot followed by dot-free
    characters. *)
Lemma suffix_of_name_shape (nm : string) :
  Pathlib.suffix_of_name nm = "" \/
  exists rest, Pathlib.suffix_of_name nm = String "." rest /\
               PyStr.has_char "." rest = false.
Proof.
  unfold Pathlib.suffix_of_name.
  destruct (PyStr.has_char "." nm) eqn:Hdot.
  - destruct (last_occurrence "." nm Hdot) as (x & t & -> & Ht).
    unfold PyStr.rfind. rewrite rfind_from_last by assumption.
    destruct (_ && _)%bool; [right | now left].
    exists t. split; [|assumption].
    replace (Z.to_nat (0 + Z.of_nat (String.length x))) with (String.length x) by lia.
    apply drop_append.
  - unfold PyStr.rfind. rewrite rfind_from_absent by assumption. now left.
Qed.

Lemma lower_ascii_dot (a : ascii) : PyStr.lower_ascii a = "."%char -> a = "."%char.
Proof.
  destruct a as [[] [] [] [] [] [] [] []]; vm_compute; intros H;
    first [reflexivity | discriminate H].
Qed.

Lemma has_dot_lower (s : string) :
  PyStr.has_char "." (PyStr.lower s) = PyStr.has_char "." s.
Proof.
  induction s as [|a s IH]; simpl; [reflexivity|]. rewrite IH. f_equal.
  destruct (Ascii.eqb_spec a ".") as [->|Hne]; [reflexivity|].
  apply Ascii.eqb_neq. intros H. now apply lower_ascii_dot in H.
Qed.

End Suffix.

Section Names.

Variable c : ascii.
Variable t : string.
Hypothesis sep_free : PyStr.has_char c t = false.

Lemma split_from_no_sep (cur : string) :
  PyStr.split_from c cur t = [cur +:+ t].
Proof using sep_free.
  clear -sep_free. revert cur sep_free.
  induction t as [|a t' IH]; intros cur H; simpl in *.
  - now rewrite append_nil_r.
  - apply orb_false_iff in H as [Ha Ht]. rewrite Ha, IH by assumption.
    now rewrite append_assoc.
Qed.

(** Appending separator-free text extends the last field only. *)
Lemma split_from_append (s cur : string) :
  exists l x, PyStr.split_from c cur s = l ++ [x] /\
              PyStr.split_from c cur (s +:+ t) = l ++ [x +:+ t].
Proof using sep_free.
  revert cur. induction s as [|a s IH]; intros cur; str_simpl.
  - exists [], cur. split; [reflexivity | apply split_from_no_sep].
  - destruct (Ascii.eqb a c).
    + destruct (IH "") as (l & x & -> & ->). now exists (cur :: l), x.
    + apply IH.
Qed.

End Names.

Lemma kept_long (p : string) : (2 <= String.length p)%nat -> Pathlib.kept p = true.
Proof.
  destruct p as [|a [|b p]]; simpl; try lia. intros _.
  unfold Pathlib.kept. simpl. now destruct (Ascii.eqb a ".").
Qed.

(** The name of a path that ends in separator-free text of two characters
    or more ends in that text. *)
Lemma name_append (path t : string) :
  PyStr.has_char "/" t = false -> (2 <= String.length t)%nat ->
  exists x, Pathlib.name (path +:+ t) = x +:+ t.
Proof.
  intros Hsep Hlen. unfold Pathlib.name, Pathlib.parts, PyStr.split.
  destruct (split_from_append "/" t Hsep path "") as (l & x & _ & ->).
  exists x. rewrite List.filter_app. simpl.
  rewrite kept_long by (rewrite length_append; lia).
  apply last_last.
Qed.

Lemma table_lookup (ext : string) :
  dict_get ext content_types = Some "application/gzip" -> ext = ".tar.gz".
Proof.
  unfold content_types. cbv [dict_get].
  repeat (match goal with
          | |- context [String.eqb ?k ext] => destruct (String.eqb_spec k ext) as [E|_]
          end; [intros H; first [exact (eq_sym E) | discriminate H] |]).
  discriminate.
Qed.

(** * Normal forms of paths *)

Lemma has_char_append (c : ascii) (a b : string) :
  PyStr.has_char c (a +:+ b) = (PyStr.has_char c a || PyStr.has_char c b)%bool.
Proof.
  induction a as [|x a IH]; str_simpl; [reflexivity|].
  now rewrite IH, orb_assoc.
Qed.

Lemma split_from_fields (c : ascii) (s cur : string) :
  PyStr.has_char c cur = false ->
  Forall (fun f => PyStr.has_char c f = false) (PyStr.split_from c cur s).
Proof.
  revert cur. induction s as [|a s IH]; intros cur Hcur; simpl.
  - now constructor.
  - destruct (Ascii.eqb a c) eqn:E.
    + constructor; [assumption | now apply IH].
    + apply IH. rewrite has_char_append, Hcur. simpl. now rewrite E.
Qed.

(** A field ends at the separator that follows it. *)
Lemma split_from_field (c : ascii) (t rest cur : string) :
  PyStr.has_char c t = false ->
  PyStr.split_from c cur (t +:+ String c rest)
  = (cur +:+ t) :: PyStr.split_from c "" rest.
Proof.
  revert cur. induction t as [|a t IH]; intros cur H; str_simpl.
  - now rewrite Ascii.eqb_refl, append_nil_r.
  - simpl in H. apply orb_false_iff in H as [Ha Ht].
    rewrite Ha, IH by assumption. now rewrite append_assoc.
Qed.

(** Splitting undoes joining, for fields without the separator. *)
Lemma split_join (ps : list string) :
  ps <> [] -> Forall (fun f => PyStr.has_char "/" f = false) ps ->
  PyStr.split "/" (Pathlib.join "/" ps) = ps.
Proof.
  unfold PyStr.split. induction ps as [|x [|y l] IH]; intros Hne Hall.
  - congruence.
  - simpl. rewrite split_from_no_sep by now inversion Hall. reflexivity.
  - change (Pathlib.join "/" (x :: y :: l))
      with (x +:+ String "/" (Pathlib.join "/" (y :: l))).
    inversion Hall; subst. rewrite split_from_field by assumption.
    f_equal. apply IH; [discriminate | assumption].
Qed.

(** The parts of a path are fields that pathlib keeps, without slashes. *)
Lemma parts_fields (path : string) :
  Forall (fun f => Pathlib.kept f = true /\ PyStr.has_char "/" f = false)
    (Pathlib.parts path).
Proof.
  unfold Pathlib.parts, PyStr.split.
  pose proof (split_from_fields "/" path "" eq_refl) as H.
  induction H as [|f l Hf _ IH]; simpl; [constructor|].
  destruct (Pathlib.kept f) eqn:E; [constructor; auto | exact IH].
Qed.

Lemma root_cases (path : string) :
  Pathlib.root path = "" \/ Pathlib.root path = "/" \/ Pathlib.root path = "//".
Proof.
  unfold Pathlib.root.
  destruct (PyStr.startswith "//" path && negb (PyStr.startswith "///" path))%bool;
    [auto|].
  destruct (PyStr.startswith "/" path); auto.
Qed.

Lemma fields_kept (l : list string) :
  Forall (fun f => Pathlib.kept f = true /\ PyStr.has_char "/" f = false) l ->
  List.filter Pathlib.kept l = l.
Proof.
  induction 1 as [|f l [Hk _] _ IH]; simpl; [reflexivity|]. now rewrite Hk, IH.
Qed.

Lemma fields_slash_free (l : list string) :
  Forall (fun f => Pathlib.kept f = true /\ PyStr.has_char "/" f = false) l ->
  Forall (fun f => PyStr.has_char "/" f = false) l.
Proof. induction 1 as [|f l [_ Hs] _ IH]; constructor; assumption. Qed.

Section Rooted.

Variable r : string.
Hypothesis r_root : r = "" \/ r = "/" \/ r = "//".

(** The root stays the root in front of a field. *)
Lemma root_before_field (a : ascii) (s : string) :
  Ascii.eqb a "/" = false -> Pathlib.root (r +:+ String a s) = r.
Proof using r_root.
  intros Ha. rewrite Ascii.eqb_sym in Ha.
  destruct r_root as [-> | [-> | ->]]; str_simpl; unfold Pathlib.root;
    cbn [PyStr.startswith]; rewrite ?Ascii.eqb_refl, ?Ha; cbn [andb negb];
    rewrite ?Ha; reflexivity.
Qed.

(** The root adds empty fields only. *)
Lemma split_after_root (s : string) :
  exists pre, PyStr.split "/" (r +:+ s) = pre ++ PyStr.split "/" s
              /\ List.filter Pathlib.kept pre = [].
Proof using r_root.
  destruct r_root as [-> | [-> | ->]].
  - now exists [].
  - now exists [""].
  - now exists [""; ""].
Qed.

Variable ps : list string.
Hypothesis ps_parts :
  Forall (fun f => Pathlib.kept f = true /\ PyStr.has_char "/" f = false) ps.
Hypothesis ps_some : ps <> [].

Lemma parts_of_joined : Pathlib.parts (r +:+ Pathlib.join "/" ps) = ps.
Proof using r_root ps_parts ps_some.
  unfold Pathlib.parts.
  destruct (split_after_root (Pathlib.join "/" ps)) as (pre & -> & Hpre).
  rewrite List.filter_app, Hpre, split_join
    by (assumption || now apply fields_slash_free).
  now apply fields_kept.
Qed.

Lemma root_of_joined : Pathlib.root (r +:+ Pathlib.join "/" ps) = r.
Proof using r_root ps_parts ps_some.
  destruct ps as [|f l]; [congruence|].
  inversion ps_parts as [|? ? [Hk Hs] _]; subst.
  destruct f as [|a f]; [discriminate Hk|].
  simpl in Hs. apply orb_false_iff in Hs as [Ha _].
  destruct l; [apply root_before_field; assumption|].
  change (Pathlib.join "/" (String a f :: s :: l))
    with (String a (f +:+ String "/" (Pathlib.join "/" (s :: l)))).
  now apply root_before_field.
Qed.

Lemma joined_asks_nothing : wants_directory (r +:+ Pathlib.join "/" ps) = false.
Proof using r_root ps_parts ps_some.
  unfold wants_directory.
  destruct (split_after_root (Pathlib.join "/" ps)) as (pre & -> & _).
  rewrite split_join by (assumption || now apply fields_slash_free).
  destruct (exists_last ps_some) as (l & f & E). rewrite E in *.
  rewrite app_assoc, last_last.
  apply Forall_app in ps_parts as [_ Hf]. inversion Hf as [|? ? [Hk _] _]; subst.
  now rewrite Hk.
Qed.

End Rooted.

(** [str(Path(path))] is the current directory, a root, or a root and
    parts. *)
Lemma to_str_cases (path : string) :
  (Pathlib.to_str path = "." \/ Pathlib.to_str path = "/" \/ Pathlib.to_str path = "//")
  \/ (Pathlib.parts path <> []
      /\ Pathlib.to_str path
         = Pathlib.root path +:+ Pathlib.join "/" (Pathlib.parts path)).
Proof.
  unfold Pathlib.to_str. destruct (Pathlib.parts path) as [|f l] eqn:E.
  - left. destruct (root_cases path) as [-> | [-> | ->]]; simpl; auto.
  - right. split; [discriminate | reflexivity].
Qed.

(** Normalising twice is normalising once. *)
Lemma to_str_normal (path : string) :
  Pathlib.to_str (Pathlib.to_str path) = Pathlib.to_str path.
Proof.
  destruct (to_str_cases path) as [[-> | [-> | ->]] | [Hne ->]]; try reflexivity.
  unfold Pathlib.to_str at 1.
  rewrite parts_of_joined, root_of_joined
    by (apply root_cases || apply parts_fields || assumption).
  destruct (Pathlib.parts path); [congruence | reflexivity].
Qed.

Lemma to_str_not_empty (path : string) : Pathlib.to_str path <> "".
Proof.
  destruct (to_str_cases path) as [[-> | [-> | ->]] | [Hne ->]]; try discriminate.
  destruct (Pathlib.parts path) as [|f l] eqn:E; [congruence|].
  pose proof (parts_fields path) as H. rewrite E in H.
  inversion H as [|? ? [Hk _] _]; subst.
  destruct f as [|a f]; [discriminate Hk|].
  destruct (root_cases path) as [-> | [-> | ->]]; destruct l; discriminate.
Qed.

(** * The file system *)

(** Under a normal form the system finds the node that is kept there. *)
Lemma os_stat_normal (fs : file_system) (path : string) :
  os_stat fs (Pathlib.to_str path)
  = match node_at fs (Pathlib.to_str path) with
    | Some node => inr node
    | None => inl (FileNotFoundError (Pathlib.to_str path))
    end.
Proof.
  unfold os_stat. rewrite to_str_normal.
  destruct (String.eqb_spec (Pathlib.to_str path) "") as [E|_];
    [now apply to_str_not_empty in E|].
  destruct (node_at fs (Pathlib.to_str path)) as [[content|sz]|] eqn:Hn;
    try reflexivity.
  destruct (to_str_cases path) as [[E | [E | E]] | [Hne E]]; rewrite E in *;
    try discriminate Hn.
  now rewrite joined_asks_nothing
    by (apply root_cases || apply parts_fields || assumption).
Qed.

(** What the system finds at a path string, it finds at its normal form. *)
Lemma lookup_normal (fs : file_system) (path : string) (node : fs_node) :
  fs !! path = Some node -> fs !! Pathlib.to_str path = Some node.
Proof.
  unfold lookup, file_system_lookup. rewrite os_stat_normal. unfold os_stat.
  destruct (String.eqb path ""); [discriminate|].
  destruct (node_at fs (Pathlib.to_str path)) as [[content|sz]|]; try discriminate.
  - destruct (wants_directory path); [discriminate | trivial].
  - trivial.
Qed.

Lemma lookup_opened (fs : file_system) (path : string) (content : list byte) :
  fs !! path = Some (RegularFile content) -> opened fs path = inr content.
Proof.
  unfold lookup, file_system_lookup, opened.
  destruct (os_stat fs path) as [e|[c|sz]]; congruence.
Qed.

Lemma lookup_directory (fs : file_system) (path : string) (sz : Z) :
  fs !! path = Some (Directory sz) -> opened fs path = inl (IsADirectoryError path).
Proof.
  unfold lookup, file_system_lookup, opened.
  destruct (os_stat fs path) as [e|[c|sz']]; congruence.
Qed.

(** A file that opens is a regular file at the path string. *)
Lemma opened_lookup (fs : file_system) (path : string) (content : list byte) :
  opened fs path = inr content -> fs !! path = Some (RegularFile content).
Proof.
  unfold lookup, file_system_lookup, opened.
  destruct (os_stat fs path) as [e|[c|sz']]; congruence.
Qed.

(** * Content types *)



(** Claim C10. The suffix of a name that ends in [.tar.gz] is [.gz], so its
    content type is [application/octet-stream]; no path has the lower-cased
    suffix [.tar.gz], and no path gets [application/gzip]. *)
Theorem tar_gz_entry_unreachable :
  (forall stem : string,
      Pathlib.suffix (stem +:+ ".tar.gz") = ".gz" /\
      get_content_type (stem +:+ ".tar.gz") = "application/octet-stream")
  /\ (forall path : string, PyStr.lower (Pathlib.suffix path) <> ".tar.gz")
  /\ (forall path : string, get_content_type path <> "application/gzip").
Proof.
  assert (Hsuffix : forall path, PyStr.lower (Pathlib.suffix path) <> ".tar.gz").
  { intros path H. unfold Pathlib.suffix in H.
    destruct (suffix_of_name_shape (Pathlib.name path)) as [E | (rest & E & Hrest)];
      rewrite E in H; [discriminate|].
    simpl in H. injection H as H.
    rewrite <- has_dot_lower, H in Hrest. discriminate. }
  split; [|split].
  - intros stem.
    destruct (name_append stem ".tar.gz") as (x & Hx); [reflexivity | simpl; lia |].
    assert (Hs : Pathlib.suffix (stem +:+ ".tar.gz") = ".gz").
    { unfold Pathlib.suffix. rewrite Hx.
      change (x +:+ ".tar.gz") with (x +:+ ".tar" +:+ String "." "gz").
      rewrite <- append_assoc. apply suffix_of_name_ext; [|discriminate|reflexivity].
      destruct x; discriminate. }
    split; [exact Hs|]. unfold get_content_type. now rewrite Hs.
  - exact Hsuffix.
  - intros path H. unfold get_content_type in H.
    destruct (dict_get _ content_types) as [v|] eqn:E; simpl in H; [|discriminate].
    subst v. apply table_lookup in E. now apply (Hsuffix path).
Qed.

(** * SHA-256: blocks *)

Module HashlibFacts.
Import Hashlib.

Lemma blocks_fuel_short (fuel : nat) (l : list byte) :
  (length l < 64)%nat -> blocks_fuel fuel l = ([], l).
Proof.
  intros H. destruct fuel; simpl; [reflexivity|].
  apply Nat.ltb_lt in H. now rewrite H.
Qed.

(** With enough fuel the result does not depend on the fuel. *)
Lemma blocks_fuel_enough (fuel fuel' : nat) (l : list byte) :
  (length l <= fuel)%nat -> (length l <= fuel')%nat ->
  blocks_fuel fuel l = blocks_fuel fuel' l.
Proof.
  revert fuel' l. induction fuel as [|fuel IH]; intros fuel' l H H'.
  - rewrite !blocks_fuel_short by lia. reflexivity.
  - destruct (Nat.ltb_spec (length l) 64) as [Hlt|Hge].
    + rewrite !blocks_fuel_short by lia. reflexivity.
    + destruct fuel' as [|fuel']; [lia|].
      cbn [blocks_fuel].
      rewrite (IH fuel' (skipn 64 l)) by (rewrite length_skipn; lia).
      reflexivity.
Qed.

Lemma split_blocks_short (l : list byte) :
  (length l < 64)%nat -> split_blocks l = ([], l).
Proof. apply blocks_fuel_short. Qed.

Lemma split_blocks_cons (b l : list byte) :
  full b ->
  split_blocks (b ++ l) = (b :: fst (split_blocks l), snd (split_blocks l)).
Proof.
  unfold full, split_blocks. intros Hb.
  assert (Hskip : skipn 64 (b ++ l) = l) by (rewrite <- Hb; apply drop_app_length).
  assert (Htake : firstn 64 (b ++ l) = b) by (rewrite <- Hb; apply take_app_length).
  assert (Hlen : length (b ++ l) = S (63 + length l)) by (rewrite length_app; lia).
  rewrite Hlen. cbn [blocks_fuel]. rewrite Hlen, Hskip, Htake.
  replace (S (63 + length l) <? 64)%nat with false
    by (symmetry; apply Nat.ltb_ge; lia).
  rewrite (blocks_fuel_enough _ (length l)) by lia.
  now destruct (blocks_fuel (length l) l).
Qed.

Lemma split_blocks_concat (bs : list (list byte)) (l : list byte) :
  Forall full bs ->
  split_blocks (concat bs ++ l)
  = (bs ++ fst (split_blocks l), snd (split_blocks l)).
Proof.
  induction 1 as [|b bs Hb _ IH]; simpl.
  - now destruct (split_blocks l).
  - rewrite <- app_assoc, split_blocks_cons, IH by assumption. reflexivity.
Qed.

(** A byte string is its blocks followed by its rest. *)
Lemma blocks_fuel_inv (fuel : nat) (l : list byte) :
  (length l <= fuel)%nat ->
  l = concat (fst (blocks_fuel fuel l)) ++ snd (blocks_fuel fuel l)
  /\ Forall full (fst (blocks_fuel fuel l))
  /\ (length (snd (blocks_fuel fuel l)) < 64)%nat.
Proof.
  revert l. induction fuel as [|fuel IH]; intros l H.
  - rewrite blocks_fuel_short by lia. simpl. repeat split; [constructor | lia].
  - cbn [blocks_fuel]. destruct (Nat.ltb_spec (length l) 64) as [Hlt|Hge].
    + simpl. repeat split; [constructor | lia].
    + destruct (IH (skipn 64 l)) as (E & HF & Hr); [rewrite length_skipn; lia|].
      destruct (blocks_fuel fuel (skipn 64 l)) as [bs r]. simpl in *.
      repeat split.
      * rewrite <- app_assoc, <- E. symmetry. apply firstn_skipn.
      * constructor; [|assumption]. unfold full. rewrite length_firstn. lia.
      * assumption.
Qed.

Lemma split_blocks_inv (l : list byte) :
  l = concat (fst (split_blocks l)) ++ snd (split_blocks l)
  /\ Forall full (fst (split_blocks l))
  /\ (length (snd (split_blocks l)) < 64)%nat.
Proof. apply blocks_fuel_inv. reflexivity. Qed.

(** * SHA-256: the hash object *)

Lemma new_buffered : buffered new.
Proof. unfold buffered. simpl. lia. Qed.

Lemma update_eq (s : sha256_obj) (data : list byte) :
  update s data
  = Sha256Obj (fold_left compress (fst (split_blocks (st_buf s ++ data))) (st_h s))
              (snd (split_blocks (st_buf s ++ data)))
              (st_len s + Z.of_nat (length data)).
Proof. unfold update. now destruct (split_blocks _). Qed.

Lemma digest_eq (s : sha256_obj) :
  digest s
  = concat (List.map bytes_of_word
      (fold_left compress (fst (split_blocks (st_buf s ++ padding (st_len s))))
         (st_h s))).
Proof. unfold digest. now destruct (split_blocks _). Qed.

Lemma update_buffered (s : sha256_obj) (data : list byte) :
  buffered (update s data).
Proof. unfold buffered. rewrite update_eq. apply split_blocks_inv. Qed.

Lemma update_nil (s : sha256_obj) : buffered s -> update s [] = s.
Proof.
  unfold buffered. intros H.
  rewrite update_eq, app_nil_r, split_blocks_short by assumption.
  destruct s. simpl. f_equal. lia.
Qed.

(** Splitting after more data has come: the blocks found so far stay, the
    rest is split together with the new data. *)
Lemma split_blocks_app (x y : list byte) :
  split_blocks (x ++ y)
  = (fst (split_blocks x) ++ fst (split_blocks (snd (split_blocks x) ++ y)),
     snd (split_blocks (snd (split_blocks x) ++ y))).
Proof.
  pose proof (split_blocks_inv x) as (E & HF & _).
  rewrite E at 1. rewrite <- app_assoc. now apply split_blocks_concat.
Qed.

(** Feeding the data in two pieces is feeding their concatenation. *)
Lemma update_app (s : sha256_obj) (a b : list byte) :
  update (update s a) b = update s (a ++ b).
Proof.
  rewrite !update_eq. cbn [st_h st_buf st_len].
  rewrite (app_assoc (st_buf s) a b), (split_blocks_app (st_buf s ++ a) b).
  cbn [fst snd]. rewrite fold_left_app, length_app. f_equal. lia.
Qed.

(** The digest of an object fed [msg] from the start is SHA-256 of [msg]. *)
Lemma digest_update_new (msg : list byte) : digest (update new msg) = sha256 msg.
Proof.
  unfold sha256. rewrite digest_eq, update_eq. cbn [st_h st_buf st_len new].
  rewrite app_nil_l, Z.add_0_l, (split_blocks_app msg). cbn [fst].
  now rewrite fold_left_app.
Qed.

Lemma hexdigest_update_new (msg : list byte) :
  hexdigest (update new msg) = sha256_hex msg.
Proof. unfold hexdigest, sha256_hex. now rewrite digest_update_new. Qed.

End HashlibFacts.

(** * The chunked read *)

Section ReadLoop.
Import Hashlib HashlibFacts.

(** With a read left over for the end of the file, the loop feeds the hash
    object every byte of the file, in order. *)
Lemma read_loop_update (fuel : nat) (h : sha256_obj) (f : list byte) :
  buffered h -> (length f < fuel)%nat -> read_loop fuel h f = update h f.
Proof.
  revert h f. induction fuel as [|fuel IH]; intros h f Hb Hlen; [lia|].
  cbn [read_loop]. remember 4096%nat as chunk eqn:Hchunk.
  destruct (firstn chunk f) as [|x block] eqn:E.
  - assert (f = []) as ->.
    { destruct f; [reflexivity|]. subst chunk. discriminate E. }
    symmetry. now apply update_nil.
  - rewrite <- E. rewrite IH.
    + now rewrite update_app, firstn_skipn.
    + apply update_buffered.
    + rewrite length_skipn. destruct f; [now rewrite firstn_nil in E|].
      simpl length in *. subst chunk. lia.
Qed.

End ReadLoop.

(** * Dicts *)

Section Dict.
Context {V : Type}.
Implicit Types (d : list (string * V)) (k : string) (v : V).

Lemma dict_get_set_eq d k v : dict_get k (dict_set k v d) = Some v.
Proof.
  induction d as [|[k' v'] d IH]; simpl.
  - now rewrite String.eqb_refl.
  - destruct (String.eqb_spec k' k) as [->|Hne]; simpl.
    + now rewrite String.eqb_refl.
    + destruct (String.eqb_spec k' k); [contradiction | exact IH].
Qed.

Lemma dict_get_set_ne d k k' v :
  k' <> k -> dict_get k' (dict_set k v d) = dict_get k' d.
Proof.
  intros Hne. induction d as [|[k0 v0] d IH]; simpl.
  - destruct (String.eqb_spec k k'); [congruence | reflexivity].
  - destruct (String.eqb_spec k0 k) as [->|Hk]; simpl.
    + destruct (String.eqb_spec k k'); [congruence | reflexivity].
    + now rewrite IH.
Qed.

(** Setting a key that is not there yet appends it. *)
Lemma dict_set_fresh d k v : dict_get k d = None -> dict_set k v d = d ++ [(k, v)].
Proof.
  induction d as [|[k' v'] d IH]; simpl; [reflexivity|].
  destruct (String.eqb k' k); [discriminate|]. intros H. now rewrite IH.
Qed.

End Dict.


(** * Running the script *)

Lemma update_metadata_json_calls bucket version platform_arch lkey file_size
    file_hash signed notarized (w : World) (s : state) :
  exists r evs n,
    update_metadata_json bucket version platform_arch lkey file_size file_hash
      signed notarized w s = (r, Build_state (trace s ++ evs) n)
    /\ ((exists e, r = Raise e /\ s3_calls evs = [GetManifest manifest_key]) \/
        exists ok, r = Ok tt /\
                   s3_calls evs = [GetManifest manifest_key; PutManifest manifest_key ok])
    /\ omap upload_metadata evs = [].
Proof.
  unfold update_metadata_json. run.
  all: rewrite <- ?app_assoc; cbn [app].
  all: eexists _, _, _; split; [reflexivity|].
  all: cbn; eauto 6.
Qed.

Lemma calculate_sha256_run (path : string) (w : World) (s : state) :
  calculate_sha256 path w s
  = match opened (files w) path with
    | inr content => (Ok (Hashlib.sha256_hex content), s)
    | inl e => (Raise e, s)
    end.
Proof.
  unfold calculate_sha256, open_rb. unfold_run.
  destruct (opened (files w) path) as [e|content]; try reflexivity.
  rewrite read_loop_update by (apply HashlibFacts.new_buffered || lia).
  now rewrite HashlibFacts.hexdigest_update_new.
Qed.

Theorem main_run_shape (args : Args) (w : World) :
  run_shape args w (exit_code args w) (events args w).
Proof.
  unfold exit_code, events, main, upload_to_r2.
  unfold_run.
  change [environ w !! "R2_ACCESS_KEY_ID"; environ w !! "R2_SECRET_ACCESS_KEY";
          environ w !! "R2_ENDPOINT"; environ w !! "R2_BUCKET"]
    with (credentials w).
  destruct (forallb truthy (credentials w)) eqn:Hcfg; reduce_run.
  2: { now apply RunMissingConfig. }
  destruct (files w !! Pathlib.to_str (arg_file args)) as [node|] eqn:Hfile.
  2: { rewrite bool_decide_false by (intros [? ?]; discriminate). reduce_run.
       now apply RunMissingFile. }
  rewrite bool_decide_true by eauto. reduce_run.
  assert (Hstat : os_stat (files w) (Pathlib.to_str (arg_file args)) = inr node).
  { revert Hfile. unfold lookup, file_system_lookup.
    destruct (os_stat (files w) (Pathlib.to_str (arg_file args))); congruence. }
  rewrite Hstat.
  destruct (opened (files w) (arg_file args)) as [e|content] eqn:Hopen.
  { destruct node; reduce_run; rewrite calculate_sha256_run, Hopen; reduce_run;
      apply (RunUnreadable args w e); rewrite ?Hfile; eauto. }
  apply opened_lookup in Hopen as Hraw.
  apply lookup_normal in Hraw as Hsame. rewrite Hfile in Hsame.
  injection Hsame as ->.
  reduce_run. rewrite calculate_sha256_run, Hopen. reduce_run.
  destruct (client_raises w) as [e|] eqn:Hclient; reduce_run.
  { now apply (RunNoClient args w content e). }
  fold (run_versioned_key args) (run_latest_key args).
  fold (client_event w) (run_metadata args w content).
  fold (upload_event args w content (run_versioned_key args) true)
       (upload_event args w content (run_versioned_key args) false)
       (upload_event args w content (run_latest_key args) true)
       (upload_event args w content (run_latest_key args) false).
  destruct (upload_file_raises w (run_versioned_key args)) as [e|] eqn:Hv; reduce_run.
  { now apply (RunVersionedFails args w content e). }
  destruct (upload_file_raises w (run_latest_key args)) as [e|] eqn:Hl; reduce_run.
  { now apply (RunLatestFails args w content e). }
  fold (uploaded args w content). fold (run_update args w content).
  destruct (run_update args w content) as [[[]|e] s'] eqn:Hupd; reduce_run.
  - now apply (RunManifestUpdated args w content s').
  - rewrite <- app_assoc. now apply (RunManifestRaises args w content e s').
Qed.

(** * Validation *)




(** * Order of the calls *)

(** The calls of the manifest update, started after the uploads. *)
Lemma run_update_calls (args : Args) (w : World) (content : list byte)
    (r : outcome unit) (s' : state) :
  run_update args w content = (r, s') ->
  exists evs,
    trace s' = trace (uploaded args w content) ++ evs
    /\ ((exists e, r = Raise e /\ s3_calls evs = [GetManifest manifest_key]) \/
        exists ok, r = Ok tt /\
          s3_calls evs = [GetManifest manifest_key; PutManifest manifest_key ok])
    /\ omap upload_metadata evs = [].
Proof.
  unfold run_update. intros H.
  destruct (update_metadata_json_calls (environ w !! "R2_BUCKET") (arg_version args)
              (platform_str (arg_platform args) +:+ "-" +:+ arch_str (arg_arch args))
              (run_latest_key args) (Z.of_nat (length content))
              (Hashlib.sha256_hex content) (arg_signed args) (arg_notarized args)
              w (uploaded args w content)) as (r0 & evs & n & E & Hcalls & Hup).
  rewrite E in H. injection H as <- <-. exists evs. cbn [trace]. auto.
Qed.

(** How far a run gets, read off its calls. *)
Lemma run_calls (args : Args) (w : World) :
  let vk := run_versioned_key args in
  let lk := run_latest_key args in
  let calls := s3_calls (events args w) in
  (calls = [] /\ exit_code args w = 1 /\
     (forallb truthy (credentials w) = false \/
      (forall content, files w !! arg_file args <> Some (RegularFile content)) \/
      client_raises w <> None))
  \/ (calls = [Upload vk false] /\ exit_code args w = 1 /\
        upload_file_raises w vk <> None)
  \/ (calls = [Upload vk true; Upload lk false] /\ exit_code args w = 1 /\
        upload_file_raises w vk = None /\ upload_file_raises w lk <> None)
  \/ (calls = [Upload vk true; Upload lk true; GetManifest manifest_key] /\
        exit_code args w = 1 /\
        upload_file_raises w vk = None /\ upload_file_raises w lk = None)
  \/ (exists ok,
        calls = [Upload vk true; Upload lk true;
                 GetManifest manifest_key; PutManifest manifest_key ok] /\
        exit_code args w = 0 /\
        upload_file_raises w vk = None /\ upload_file_raises w lk = None).
Proof.
  cbv zeta.
  destruct (main_run_shape args w) as
    [Hc | Hc Hf | e Hc Hf Ho | content e Hc Hf Hcl | content e Hc Hf Hcl Hv
     | content e Hc Hf Hcl Hv Hl | content s' Hc Hf Hcl Hv Hl Hu
     | content e s' Hc Hf Hcl Hv Hl Hu].
  1-4: left; repeat split; try reflexivity.
  - now left.
  - right; left. intros content H. apply lookup_normal in H. congruence.
  - right; left. intros content H. apply lookup_opened in H. congruence.
  - right; right. congruence.
  - right; left. repeat split; try reflexivity. congruence.
  - right; right; left. repeat split; try reflexivity; congruence.
  - destruct (run_update_calls _ _ _ _ _ Hu) as (evs & -> & Hevs & _).
    unfold s3_calls. rewrite omap_app. fold (s3_calls evs).
    destruct Hevs as [(e & He & _) | (ok & _ & ->)]; [discriminate He|].
    right; right; right; right. exists ok. auto.
  - destruct (run_update_calls _ _ _ _ _ Hu) as (evs & -> & Hevs & _).
    unfold s3_calls. rewrite !omap_app. fold (s3_calls evs).
    destruct Hevs as [(e' & _ & ->) | (ok & Hok & ->)]; [|discriminate Hok].
    right; right; right; left. auto.
Qed.

(** Claim C5. The calls of a run to the storage service are, in order: the
    upload to the versioned key, the upload to the latest key, the read of
    the manifest, the write of the manifest; the run stops at the first
    upload that fails, so the manifest is read only after both uploads have
    succeeded. When either upload fails there is no manifest call and the
    exit status is 1. *)
Theorem manifest_update_follows_uploads (args : Args) (w : World) :
  let vk := run_versioned_key args in
  let lk := run_latest_key args in
  let calls := s3_calls (events args w) in
  (calls = []
   \/ calls = [Upload vk false]
   \/ calls = [Upload vk true; Upload lk false]
   \/ calls = [Upload vk true; Upload lk true; GetManifest manifest_key]
   \/ exists ok, calls = [Upload vk true; Upload lk true;
                          GetManifest manifest_key; PutManifest manifest_key ok])
  /\ (upload_file_raises w vk <> None \/ upload_file_raises w lk <> None ->
      List.filter is_manifest_call calls = [] /\ exit_code args w = 1).
Proof.
  cbv zeta.
  destruct (run_calls args w)
    as [(-> & Hx & _) | [(-> & Hx & _) | [(-> & Hx & _)
        | [(-> & Hx & Hv & Hl) | (ok & -> & Hx & Hv & Hl)]]]].
  1-3: split; [eauto 6 | intros _; split; [reflexivity | exact Hx]].
  - split; [eauto 6 | intros [H | H]; contradiction].
  - split; [eauto 7 | intros [H | H]; contradiction].
Qed.

Lemma manifest_update_follows_uploads_witness :
  upload_file_raises (Sample.world_upload_fails (run_latest_key Sample.args))
    (run_latest_key Sample.args) <> None
  /\ List.filter is_manifest_call
       (s3_calls (events Sample.args
                    (Sample.world_upload_fails (run_latest_key Sample.args)))) = []
  /\ exit_code Sample.args (Sample.world_upload_fails (run_latest_key Sample.args)) = 1.
Proof.
  split; [discriminate|].
  apply (manifest_update_follows_uploads Sample.args
           (Sample.world_upload_fails (run_latest_key Sample.args))).
  right. discriminate.
Defined.

(** * Object keys *)

Lemma versioned_key_format (version platform arch filename : string) :
  versioned_key version platform arch filename
  = "releases/v" +:+ version +:+ "/" +:+ platform +:+ "-" +:+ arch +:+ "/" +:+ filename.
Proof. unfold versioned_key. now rewrite !append_assoc. Qed.

Lemma latest_key_format (platform arch suffix : string) :
  latest_key platform arch suffix
  = "releases/latest/" +:+ platform +:+ "-" +:+ arch +:+ "/" +:+
    "Ami" +:+ "-latest-" +:+ platform +:+ "-" +:+ arch +:+ suffix.
Proof. unfold latest_key, latest_filename. now rewrite !append_assoc. Qed.

(** Claim C6. The keys of the uploads of a run are the versioned key
    [releases/v{version}/{platform}-{arch}/{filename}] and then the latest
    key [releases/latest/{platform}-{arch}/Ami-latest-{platform}-{arch}{ext}],
    both written from the arguments alone, whatever the world (clock,
    environment, answers of the service) is; a run that gets to upload
    uses exactly these. *)
Theorem object_keys_are_functions_of_the_inputs (args : Args) (w : World) :
  let version := arg_version args in
  let platform := platform_str (arg_platform args) in
  let arch := arch_str (arg_arch args) in
  let filename := Pathlib.name (arg_file args) in
  let vk := "releases/v" +:+ version +:+ "/" +:+ platform +:+ "-" +:+ arch
            +:+ "/" +:+ filename in
  let lk := "releases/latest/" +:+ platform +:+ "-" +:+ arch +:+ "/" +:+
            "Ami" +:+ "-latest-" +:+ platform +:+ "-" +:+ arch +:+
            Pathlib.suffix_of_name filename in
  let keys := omap upload_key_of (s3_calls (events args w)) in
  (keys = [] \/ keys = [vk] \/ keys = [vk; lk])
  /\ (forall content,
        forallb truthy (credentials w) = true ->
        files w !! arg_file args = Some (RegularFile content) ->
        client_raises w = None ->
        keys = match upload_file_raises w vk with
               | Some _ => [vk]
               | None => [vk; lk]
               end).
Proof.
  cbv zeta.
  rewrite <- versioned_key_format, <- latest_key_format.
  fold (Pathlib.suffix (arg_file args)).
  fold (run_versioned_key args) (run_latest_key args).
  destruct (run_calls args w)
    as [(-> & _ & Hval) | [(-> & _ & Hv) | [(-> & _ & Hv & Hl)
        | [(-> & _ & Hv & Hl) | (ok & -> & _ & Hv & Hl)]]]];
    cbn [omap list_omap upload_key_of].
  - split; [tauto|]. intros content Hc Hf Hcl.
    destruct Hval as [H | [H | H]]; [congruence | now destruct (H content) | contradiction].
  - split; [tauto|]. intros _ _ _ _.
    now destruct (upload_file_raises w (run_versioned_key args)).
  - split; [tauto|]. intros _ _ _ _. now rewrite Hv.
  - split; [tauto|]. intros _ _ _ _. now rewrite Hv.
  - split; [tauto|]. intros _ _ _ _. now rewrite Hv.
Qed.

Lemma object_keys_are_functions_of_the_inputs_witness :
  forallb truthy (credentials (Sample.world (inl NoSuchKey))) = true
  /\ files (Sample.world (inl NoSuchKey)) !! arg_file Sample.args
     = Some (RegularFile (list_byte_of_string "abc"))
  /\ omap upload_key_of (s3_calls (events Sample.args (Sample.world (inl NoSuchKey))))
     = [ "releases/v1.1.0/macos-arm64/Ami-1.1.0-macos-arm64.dmg";
         "releases/latest/macos-arm64/Ami-latest-macos-arm64.dmg" ].
Proof.
  split; [reflexivity | split; [reflexivity|]].
  exact (proj2 (object_keys_are_functions_of_the_inputs Sample.args
                  (Sample.world (inl NoSuchKey)))
           (list_byte_of_string "abc") eq_refl eq_refl eq_refl).
Defined.

(** * Timestamps *)

Lemma is_digit_digit (n : N) : is_digit (Datetime.digit n) = true.
Proof.
  unfold Datetime.digit. pose proof (N.mod_upper_bound n 10) as H.
  set (r := (n mod 10)%N) in *.
  assert (r = 0 \/ r = 1 \/ r = 2 \/ r = 3 \/ r = 4 \/ r = 5 \/ r = 6 \/ r = 7
          \/ r = 8 \/ r = 9)%N as Hr by lia.
  repeat (destruct Hr as [-> | Hr]; [reflexivity|]). now rewrite Hr.
Qed.

(** The timestamp has the seconds shape when the clock shows no
    microseconds, and the microseconds shape otherwise. *)
Lemma timestamp_shape (now : datetime) :
  matches (if N.eqb (microsecond now) 0 then iso_seconds_Z else iso_micros_Z)
          (timestamp now) = true
  /\ (microsecond now <> 0%N -> matches iso_seconds_Z (timestamp now) = false).
Proof.
  unfold timestamp, isoformat.
  destruct (N.eqb_spec (microsecond now) 0) as [E | E].
  - split; [|contradiction].
    cbv [zfill String.append iso_seconds_Z]. cbn [matches Ascii.eqb Bool.eqb].
    now rewrite !is_digit_digit.
  - split; [|intros _].
    + cbv [zfill String.append iso_micros_Z]. cbn [matches Ascii.eqb Bool.eqb].
      now rewrite !is_digit_digit.
    + cbv [zfill String.append iso_seconds_Z]. cbn [matches Ascii.eqb Bool.eqb].
      now rewrite !is_digit_digit.
Qed.

Lemma build_date_of_metadata version platform arch now file_hash signed notarized
    commit_sha :
  dict_get "build-date"
    (object_metadata version platform arch now file_hash signed notarized commit_sha)
  = Some (timestamp now).
Proof.
  unfold object_metadata.
  destruct (truthy commit_sha), (String.eqb platform "macos");
    rewrite ?dict_get_set_ne by discriminate; reflexivity.
Qed.

(** Both uploads of a run carry the metadata computed before the first. *)
Lemma run_upload_metadata (args : Args) (w : World) (md : list (string * string)) :
  md ∈ omap upload_metadata (events args w) ->
  exists content, md = run_metadata args w content.
Proof.
  destruct (main_run_shape args w) as
    [Hc | Hc Hf | e Hc Hf Ho | content e Hc Hf Hcl | content e Hc Hf Hcl Hv
     | content e Hc Hf Hcl Hv Hl | content s' Hc Hf Hcl Hv Hl Hu
     | content e s' Hc Hf Hcl Hv Hl Hu].
  1-4: cbn; intros Hin; inversion Hin.
  1-2: cbn; intros Hin; exists content; apply list_elem_of_In in Hin;
       cbn in Hin; intuition congruence.
  - destruct (run_update_calls _ _ _ _ _ Hu) as (evs & -> & _ & Hup).
    rewrite omap_app, Hup, app_nil_r. cbn. intros Hin. exists content.
    apply list_elem_of_In in Hin. cbn in Hin. intuition congruence.
  - destruct (run_update_calls _ _ _ _ _ Hu) as (evs & -> & _ & Hup).
    rewrite !omap_app, Hup. cbn. intros Hin. exists content.
    apply list_elem_of_In in Hin. cbn in Hin. intuition congruence.
Qed.

(** Claim C9, as amended. The [build-date] of the metadata of every upload is
    the first reading of the UTC clock in ISO-8601 form with a trailing Z;
    it stops at the seconds when the reading has no microseconds and carries
    a six-digit fraction otherwise. *)
Theorem build_timestamp_format (args : Args) (w : World)
    (md : list (string * string)) :
  md ∈ omap upload_metadata (events args w) ->
  let now := clock w 0 in
  dict_get "build-date" md = Some (isoformat now +:+ "Z")
  /\ matches (if N.eqb (microsecond now) 0 then iso_seconds_Z else iso_micros_Z)
             (isoformat now +:+ "Z") = true
  /\ (microsecond now <> 0%N ->
      matches iso_seconds_Z (isoformat now +:+ "Z") = false).
Proof.
  intros Hmd now. destruct (run_upload_metadata args w md Hmd) as (content & ->).
  split; [apply build_date_of_metadata | apply timestamp_shape].
Qed.

Lemma build_timestamp_format_witness :
  let md := run_metadata Sample.args (Sample.world (inl NoSuchKey))
              (list_byte_of_string "abc") in
  md ∈ omap upload_metadata (events Sample.args (Sample.world (inl NoSuchKey)))
  /\ dict_get "build-date" md = Some "2024-01-02T03:04:05.123456Z"
  /\ matches iso_micros_Z "2024-01-02T03:04:05.123456Z" = true.
Proof.
  assert (H : run_metadata Sample.args (Sample.world (inl NoSuchKey))
                (list_byte_of_string "abc")
              ∈ omap upload_metadata (events Sample.args (Sample.world (inl NoSuchKey)))).
  { vm_compute. left. }
  split; [exact H|].
  destruct (build_timestamp_format Sample.args (Sample.world (inl NoSuchKey)) _ H)
    as (H1 & H2 & _).
  split; [exact H1 | exact H2].
Defined.

(** The timestamp of the sample run shows its microseconds. *)
Lemma build_timestamp_keeps_microseconds :
  (fun md => dict_get "build-date" md)
    <$> omap upload_metadata (events Sample.args (Sample.world (inl NoSuchKey)))
  = [ Some "2024-01-02T03:04:05.123456Z"; Some "2024-01-02T03:04:05.123456Z" ]
  /\ matches iso_seconds_Z "2024-01-02T03:04:05.123456Z" = false.
Proof. split; vm_compute; reflexivity. Qed.

(** * The content hash *)

(** Claim C7. [calculate_sha256] returns the hexadecimal SHA-256 of the whole
    content of the file; the loop over 4096-byte reads leaves the hash object
    as one update with the whole content does; and the result depends on the
    content only, not on the world or the state around it. *)
Theorem calculate_sha256_is_sha256_of_the_file (w w' : World) (s s' : state)
    (path : string) (content : list byte) :
  files w !! path = Some (RegularFile content) ->
  files w' !! path = Some (RegularFile content) ->
  calculate_sha256 path w s = (Ok (Hashlib.sha256_hex content), s)
  /\ read_loop (S (length content)) Hashlib.new content
     = Hashlib.update Hashlib.new content
  /\ Hashlib.hexdigest (Hashlib.update Hashlib.new content)
     = Hashlib.hex (Hashlib.sha256 content)
  /\ fst (calculate_sha256 path w' s') = fst (calculate_sha256 path w s).
Proof.
  intros Hw Hw'. apply lookup_opened in Hw, Hw'.
  rewrite !calculate_sha256_run, Hw, Hw'. repeat split.
  - apply read_loop_update; [apply HashlibFacts.new_buffered | lia].
  - apply HashlibFacts.hexdigest_update_new.
Qed.

Lemma calculate_sha256_is_sha256_of_the_file_witness :
  files (Sample.world (inl NoSuchKey)) !! Sample.dmg
    = Some (RegularFile (list_byte_of_string "abc"))
  /\ calculate_sha256 Sample.dmg (Sample.world (inl NoSuchKey)) initial
     = (Ok (Hashlib.sha256_hex (list_byte_of_string "abc")), initial).
Proof.
  split; [reflexivity|].
  apply (calculate_sha256_is_sha256_of_the_file
           (Sample.world (inl NoSuchKey)) Sample.world_no_bucket initial initial
           Sample.dmg (list_byte_of_string "abc")); reflexivity.
Defined.

(** * The manifest *)

Lemma download_info_entry endpoint bucket lkey file_size file_hash signed notarized
    (p : Platform) (a : Arch) :
  download_info endpoint bucket lkey file_size file_hash signed notarized
    (platform_str p +:+ "-" +:+ arch_str a)
  = [ ("url", JStr (fmt endpoint +:+ "/" +:+ fmt bucket +:+ "/" +:+ lkey));
      ("size", JInt file_size);
      ("sha256", JStr file_hash);
      ("signed", JBool signed) ]
    ++ match p with
       | macos => [ ("notarized", JBool notarized) ]
       | windows => []
       end.
Proof. destruct p, a; reflexivity. Qed.

Lemma put_docs_app (tr tr' : list event) : put_docs (tr ++ tr') = put_docs tr ++ put_docs tr'.
Proof. apply omap_app. Qed.



(** From these starting points the update ends without an exception. *)
Lemma update_returns_normally (w : World) (s : state) (bucket : option string)
    (version platform_arch lkey : string) (file_size : Z) (file_hash : string)
    (signed notarized : bool) :
  (exists e, get_object_result w manifest_key = inl e \/
             get_object_result w manifest_key = inr (BodyInvalid e))
  \/ (exists m d, get_object_result w manifest_key = inr (BodyJson (JDict m)) /\
                  dict_get "downloads" m = Some (JDict d)) ->
  exists s' : state,
    update_metadata_json bucket version platform_arch lkey file_size file_hash
      signed notarized w s = (Ok tt, s').
Proof.
  intros Hget. unfold update_metadata_json. unfold_run. fold manifest_key.
  destruct Hget as [(e & [-> | ->]) | (m & d & -> & Hd)]; reduce_run.
  1-2: destruct (is_NoSuchKey e); unfold_run.
  all: cbn [setitem getitem dict_get dict_set String.eqb Ascii.eqb Bool.eqb].
  5: rewrite !dict_get_set_ne, Hd by discriminate.
  all: unfold_run; cbn [setitem]; reduce_run.
  all: match goal with
       | |- context [put_object_raises ?w' ?k ?doc] =>
           destruct (put_object_raises w' k doc)
       end; eexists; reflexivity.
Qed.

(** Claim C1. Starting from a prior manifest that is a JSON object with a
    [downloads] object, the update hands PutObject a document whose [version]
    and [release_date] are those of this run, whose [downloads] map agrees
    with the prior one at every key other than [{platform}-{arch}], and whose
    entry at that key is {url, size, sha256, signed}, with [notarized] exactly
    when the platform is macos. The second part is the example of the
    specification: after the update for macos-arm64 the document holds the
    windows-x64 entry as it was, the new macos-arm64 entry and version
    1.1.0. *)
Theorem manifest_update_merges :
  (forall (w : World) (s : state) (bucket : option string) (version lkey : string)
          (p : Platform) (a : Arch) (file_size : Z) (file_hash : string)
          (signed notarized : bool) (m d : list (string * json)),
      let platform_arch := platform_str p +:+ "-" +:+ arch_str a in
      get_object_result w manifest_key = inr (BodyJson (JDict m)) ->
      dict_get "downloads" m = Some (JDict d) ->
      exists (m' d' : list (string * json)) (s' : state),
        update_metadata_json bucket version platform_arch lkey file_size file_hash
          signed notarized w s = (Ok tt, s')
        /\ put_docs (trace s') = put_docs (trace s) ++ [JDict m']
        /\ dict_get "version" m' = Some (JStr version)
        /\ dict_get "release_date" m'
           = Some (JStr (isoformat (clock w (ticks s)) +:+ "Z"))
        /\ dict_get "downloads" m' = Some (JDict d')
        /\ (forall k, k <> platform_arch -> dict_get k d' = dict_get k d)
        /\ dict_get platform_arch d'
           = Some (JDict ([ ("url", JStr (fmt (environ w !! "R2_ENDPOINT") +:+ "/"
                                          +:+ fmt bucket +:+ "/" +:+ lkey));
                            ("size", JInt file_size);
                            ("sha256", JStr file_hash);
                            ("signed", JBool signed) ]
                          ++ match p with
                             | macos => [ ("notarized", JBool notarized) ]
                             | windows => []
                             end)))
  /\ put_docs (trace (snd
       (update_metadata_json (Some "ami") "1.1.0" "macos-arm64"
          "releases/latest/macos-arm64/Ami-latest-macos-arm64.dmg" 20 "h2"
          false true (Sample.world (inr (BodyJson Sample.prior))) initial)))
     = [ JDict
           [ ("version", JStr "1.1.0");
             ("release_date", JStr "2024-01-02T03:04:05.123456Z");
             ("downloads",
              JDict
                [ ("windows-x64",
                   JDict [ ("url", JStr "u1"); ("size", JInt 10);
                           ("sha256", JStr "h1"); ("signed", JBool true) ]);
                  ("macos-arm64",
                   JDict [ ("url", JStr "https://acct.r2.example/ami/releases/latest/macos-arm64/Ami-latest-macos-arm64.dmg");
                           ("size", JInt 20); ("sha256", JStr "h2");
                           ("signed", JBool false);
                           ("notarized", JBool true) ]) ]) ] ].
Proof.
  split; [|vm_compute; reflexivity].
  intros w s bucket version lkey p a file_size file_hash signed notarized m d.
  intros platform_arch Hget Hdl.
  unfold update_metadata_json. unfold_run. fold manifest_key. rewrite Hget.
  reduce_run. cbn [setitem getitem].
  rewrite !dict_get_set_ne, Hdl by discriminate. unfold_run.
  cbn [setitem]. reduce_run.
  set (info := download_info _ _ _ _ _ _ _ _).
  set (d' := dict_set platform_arch (JDict info) d).
  set (m' := dict_set "downloads" (JDict d') _).
  exists m', d'.
  assert (Hdoc : dict_get "version" m' = Some (JStr version)
          /\ dict_get "release_date" m' = Some (JStr (isoformat (clock w (ticks s)) +:+ "Z"))
          /\ dict_get "downloads" m' = Some (JDict d')
          /\ (forall k, k <> platform_arch -> dict_get k d' = dict_get k d)
          /\ dict_get platform_arch d' = Some (JDict info)).
  { subst m' d'. repeat split.
    - rewrite !dict_get_set_ne by discriminate. apply dict_get_set_eq.
    - rewrite dict_get_set_ne by discriminate. apply dict_get_set_eq.
    - apply dict_get_set_eq.
    - intros k Hk. now apply dict_get_set_ne.
    - apply dict_get_set_eq. }
  assert (Hinfo : info = [ ("url", JStr (fmt (environ w !! "R2_ENDPOINT") +:+ "/"
                                         +:+ fmt bucket +:+ "/" +:+ lkey));
                           ("size", JInt file_size);
                           ("sha256", JStr file_hash);
                           ("signed", JBool signed) ]
                         ++ match p with
                            | macos => [ ("notarized", JBool notarized) ]
                            | windows => []
                            end)
    by apply download_info_entry.
  cbn [app] in Hinfo. rewrite <- Hinfo.
  destruct (put_object_raises w manifest_key (JDict m')) as [e|];
    eexists; (split; [reflexivity|]); cbn [trace];
    rewrite !put_docs_app; cbn [put_docs omap list_omap put_doc];
    rewrite ?app_nil_r; (split; [reflexivity | exact Hdoc]).
Qed.

Lemma manifest_update_merges_witness :
  get_object_result (Sample.world (inr (BodyJson Sample.prior))) manifest_key
    = inr (BodyJson Sample.prior)
  /\ exists (m' d' : list (string * json)) (s' : state),
       update_metadata_json (Some "ami") "1.1.0" "macos-arm64"
         "releases/latest/macos-arm64/Ami-latest-macos-arm64.dmg" 20 "h2"
         false true (Sample.world (inr (BodyJson Sample.prior))) initial = (Ok tt, s')
       /\ put_docs (trace s') = [JDict m']
       /\ dict_get "version" m' = Some (JStr "1.1.0")
       /\ dict_get "downloads" m' = Some (JDict d')
       /\ dict_get "windows-x64" d'
          = Some (JDict [ ("url", JStr "u1"); ("size", JInt 10);
                          ("sha256", JStr "h1"); ("signed", JBool true) ]).
Proof.
  split; [reflexivity|].
  destruct (proj1 manifest_update_merges
              (Sample.world (inr (BodyJson Sample.prior))) initial (Some "ami")
              "1.1.0" "releases/latest/macos-arm64/Ami-latest-macos-arm64.dmg"
              macos arm64 20 "h2" false true
              [ ("version", JStr "1.0.0"); ("release_date", JStr "t0");
                ("downloads",
                 JDict [ ("windows-x64",
                          JDict [ ("url", JStr "u1"); ("size", JInt 10);
                                  ("sha256", JStr "h1"); ("signed", JBool true) ]) ]) ]
              [ ("windows-x64",
                 JDict [ ("url", JStr "u1"); ("size", JInt 10);
                         ("sha256", JStr "h1"); ("signed", JBool true) ]) ]
              eq_refl eq_refl)
    as (m' & d' & s' & Hrun & Hdocs & Hv & _ & Hd & Hother & _).
  exists m', d', s'. repeat split; try assumption.
  rewrite Hother by discriminate. reflexivity.
Defined.

(** Claim C2, as amended. When GetObject raises (the object is absent or the
    fetch fails) or reading, decoding or parsing the body as JSON raises, the
    update returns normally and the document it hands to PutObject is the
    fresh shell with this run's entry: [version], [release_date] and a
    [downloads] map that holds this entry only. *)
Theorem manifest_update_from_fresh_shell (w : World) (s : state)
    (bucket : option string) (version platform_arch lkey : string) (file_size : Z)
    (file_hash : string) (signed notarized : bool) (e : exn) :
  get_object_result w manifest_key = inl e \/
  get_object_result w manifest_key = inr (BodyInvalid e) ->
  exists s' : state,
    update_metadata_json bucket version platform_arch lkey file_size file_hash
      signed notarized w s = (Ok tt, s')
    /\ put_docs (trace s')
       = put_docs (trace s)
         ++ [ JDict
                [ ("version", JStr version);
                  ("release_date", JStr (isoformat (clock w (S (ticks s))) +:+ "Z"));
                  ("downloads",
                   JDict
                     [ (platform_arch,
                        JDict (download_info (environ w !! "R2_ENDPOINT") bucket
                                 lkey file_size file_hash signed notarized
                                 platform_arch)) ]) ] ].
Proof.
  intros Hget. unfold update_metadata_json. unfold_run. fold manifest_key.
  destruct Hget as [-> | ->]; reduce_run.
  all: destruct (is_NoSuchKey e); unfold_run; cbn [setitem getitem dict_get dict_set
         String.eqb Ascii.eqb Bool.eqb]; unfold_run.
  all: match goal with
       | |- context [put_object_raises ?w' ?k ?doc] =>
           destruct (put_object_raises w' k doc)
       end.
  all: eexists; (split; [reflexivity|]); cbn [trace];
       rewrite !put_docs_app; cbn [put_docs omap list_omap put_doc];
       rewrite ?app_nil_r; reflexivity.
Qed.

Lemma manifest_update_from_fresh_shell_witness :
  get_object_result (Sample.world (inl NoSuchKey)) manifest_key = inl NoSuchKey
  /\ exists s' : state,
       update_metadata_json (Some "ami") "1.1.0" "macos-arm64"
         "releases/latest/macos-arm64/Ami-latest-macos-arm64.dmg" 20 "h2"
         false true (Sample.world (inl NoSuchKey)) initial = (Ok tt, s')
       /\ put_docs (trace s')
          = [ JDict
                [ ("version", JStr "1.1.0");
                  ("release_date", JStr "2024-01-02T03:04:05.123456Z");
                  ("downloads",
                   JDict
                     [ ("macos-arm64",
                        JDict [ ("url", JStr "https://acct.r2.example/ami/releases/latest/macos-arm64/Ami-latest-macos-arm64.dmg");
                                ("size", JInt 20); ("sha256", JStr "h2");
                                ("signed", JBool false);
                                ("notarized", JBool true) ]) ]) ] ].
Proof.
  split; [reflexivity|].
  destruct (manifest_update_from_fresh_shell (Sample.world (inl NoSuchKey)) initial
              (Some "ami") "1.1.0" "macos-arm64"
              "releases/latest/macos-arm64/Ami-latest-macos-arm64.dmg" 20 "h2"
              false true NoSuchKey (or_introl eq_refl)) as (s' & Hrun & Hdocs).
  exists s'. split; [exact Hrun | exact Hdocs].
Defined.

(** A body that is JSON but not a manifest is not replaced by a fresh
    shell: what it holds under [downloads] is written back. *)
Lemma malformed_manifest_is_carried_over :
  manifest_shape Sample.garbage_entry = false
  /\ put_docs (events Sample.args (Sample.world (inr (BodyJson Sample.garbage_entry))))
     = [ JDict
           [ ("downloads",
              JDict
                [ ("windows-x64", JStr "garbage");
                  ("macos-arm64",
                   JDict [ ("url", JStr "https://acct.r2.example/ami/releases/latest/macos-arm64/Ami-latest-macos-arm64.dmg");
                           ("size", JInt 3);
                           ("sha256", JStr "ba7816bf8f01cfea414140de5dae2223b00361a396177a9cb410ff61f20015ad");
                           ("signed", JBool false);
                           ("notarized", JBool true) ]) ]);
             ("version", JStr "1.1.0");
             ("release_date", JStr "2024-01-02T03:04:05.123456Z") ] ]
  /\ put_docs (events Sample.args (Sample.world (inr (BodyJson Sample.garbage_entry))))
     <> put_docs (events Sample.args (Sample.world (inl NoSuchKey))).
Proof.
  split; [reflexivity|]. split; [vm_compute; reflexivity|].
  vm_compute. discriminate.
Qed.

(** * Failures of the manifest update *)

(** Exceptions of GetObject, of reading the body and of PutObject are
    caught inside the update. *)
Lemma manifest_exceptions_are_warnings (args : Args) (w : World)
    (content : list byte) :
  forallb truthy (credentials w) = true ->
  files w !! arg_file args = Some (RegularFile content) ->
  client_raises w = None ->
  upload_file_raises w (run_versioned_key args) = None ->
  upload_file_raises w (run_latest_key args) = None ->
  (exists e, get_object_result w manifest_key = inl e \/
             get_object_result w manifest_key = inr (BodyInvalid e))
  \/ (exists m d, get_object_result w manifest_key = inr (BodyJson (JDict m)) /\
                  dict_get "downloads" m = Some (JDict d)) ->
  exit_code args w = 0.
Proof.
  intros Hc Hf Hcl Hv Hl Hget.
  assert (Hok : exists s', run_update args w content = (Ok tt, s'))
    by (unfold run_update; now apply update_returns_normally).
  destruct Hok as (s' & Hok).
  pose proof (lookup_normal _ _ _ Hf) as Hn.
  pose proof (lookup_opened _ _ _ Hf) as Ho.
  destruct (main_run_shape args w); congruence.
Qed.

(** Claim C3 on the run where it fails: both uploads succeed, the manifest
    object holds the JSON object [{}], the update raises [KeyError] at
    [metadata["downloads"]], nothing is written, and the run reports an
    upload error and exits with status 1. *)
Theorem manifest_without_downloads_fails_the_run :
  manifest_shape Sample.empty_object = false
  /\ exit_code Sample.args (Sample.world (inr (BodyJson Sample.empty_object))) = 1
  /\ events Sample.args (Sample.world (inr (BodyJson Sample.empty_object)))
     = [ client_event (Sample.world (inr (BodyJson Sample.empty_object)));
         upload_event Sample.args (Sample.world (inr (BodyJson Sample.empty_object)))
           (list_byte_of_string "abc") (run_versioned_key Sample.args) true;
         upload_event Sample.args (Sample.world (inr (BodyJson Sample.empty_object)))
           (list_byte_of_string "abc") (run_latest_key Sample.args) true;
         EvGetObject (Some "ami") "metadata/latest.json";
         EvPrint (newline +:+ "❌ Error uploading to R2: 'downloads'");
         EvTraceback (KeyError "downloads") ].
Proof. repeat split; vm_compute; reflexivity. Qed.

(** * Runs that end before the uploads *)

Lemma empty_credential (w : World) :
  environ w !! "R2_ACCESS_KEY_ID" = Some "" \/
  environ w !! "R2_SECRET_ACCESS_KEY" = Some "" \/
  environ w !! "R2_ENDPOINT" = Some "" \/
  environ w !! "R2_BUCKET" = Some "" ->
  forallb truthy (credentials w) = false.
Proof.
  unfold credentials. cbn [forallb].
  intros [H | [H | [H | H]]]; rewrite H; cbn [truthy String.eqb negb];
    rewrite ?andb_false_r; reflexivity.
Qed.

(** Property X1. A configuration value that is set to the empty string is treated like a
    missing one: the run prints the configuration error, exits with status
    1 and contacts nothing. *)
Theorem empty_configuration_value_counts_as_missing (args : Args) (w : World) :
  environ w !! "R2_ACCESS_KEY_ID" = Some "" \/
  environ w !! "R2_SECRET_ACCESS_KEY" = Some "" \/
  environ w !! "R2_ENDPOINT" = Some "" \/
  environ w !! "R2_BUCKET" = Some "" ->
  exit_code args w = 1
  /\ events args w
     = [ EvPrint "Error: Missing R2 credentials in environment variables";
         EvPrint "Required: R2_ACCESS_KEY_ID, R2_SECRET_ACCESS_KEY, R2_ENDPOINT, R2_BUCKET" ].
Proof.
  intros H. apply empty_credential in H.
  destruct (main_run_shape args w); try congruence. split; reflexivity.
Qed.

Lemma empty_configuration_value_counts_as_missing_witness :
  environ Faults.world_empty_endpoint !! "R2_ENDPOINT" = Some ""
  /\ exit_code Sample.args Faults.world_empty_endpoint = 1.
Proof.
  split; [reflexivity|].
  apply (empty_configuration_value_counts_as_missing Sample.args
           Faults.world_empty_endpoint).
  right; right; left. reflexivity.
Defined.

(** Property X2. What fails between the validation and the first upload is caught by
    nothing: when the path names a directory, or the client cannot be
    constructed, the run ends with the traceback of that exception and
    status 1, without the script's own error line and without any call to
    the storage service. *)
Theorem failure_before_the_uploads_is_uncaught (args : Args) (w : World) (e : exn) :
  forallb truthy (credentials w) = true ->
  (exists sz, files w !! arg_file args = Some (Directory sz)
              /\ e = IsADirectoryError (arg_file args))
  \/ (exists content, files w !! arg_file args = Some (RegularFile content)
                      /\ client_raises w = Some e) ->
  exit_code args w = 1
  /\ events args w = [EvTraceback e].
Proof.
  intros Hc H.
  assert (Hfound : exists node, files w !! arg_file args = Some node)
    by (destruct H as [(sz & Hd & _) | (content & Hr & _)]; eauto).
  destruct Hfound as (node & Hfound).
  pose proof (lookup_normal _ _ _ Hfound) as Hn.
  destruct (main_run_shape args w) as
    [Hc' | Hc' Hf | e' Hc' Hf Ho | content e' Hc' Hf Hcl | content e' Hc' Hf Hcl Hv
     | content e' Hc' Hf Hcl Hv Hl | content s' Hc' Hf Hcl Hv Hl Hu
     | content e' s' Hc' Hf Hcl Hv Hl Hu];
  destruct H as [(sz' & Hd & ->) | (content' & Hr & He)];
    try (apply lookup_directory in Hd as Ho'); try (apply lookup_opened in Hr as Ho');
    try congruence; split; try reflexivity; congruence.
Qed.

Lemma failure_before_the_uploads_is_uncaught_witness :
  forallb truthy (credentials Faults.world_directory) = true
  /\ files Faults.world_directory !! arg_file Sample.args = Some (Directory 4096)
  /\ events Sample.args Faults.world_directory
     = [EvTraceback (IsADirectoryError Sample.dmg)]
  /\ events Sample.args Faults.world_no_client
     = [EvTraceback (OtherError "Invalid endpoint: ftp://acct")].
Proof.
  split; [reflexivity|]. split; [reflexivity|]. split.
  - apply (failure_before_the_uploads_is_uncaught Sample.args Faults.world_directory
             (IsADirectoryError Sample.dmg) eq_refl).
    left. exists 4096. split; reflexivity.
  - apply (failure_before_the_uploads_is_uncaught Sample.args Faults.world_no_client
             (OtherError "Invalid endpoint: ftp://acct") eq_refl).
    right. exists (list_byte_of_string "abc"). split; reflexivity.
Defined.

(** * The exit status *)

(** Property X3. The exit status is 0 or 1, and it is 0 exactly for the runs that made
    all four calls: both uploads succeeded, the manifest was read and its
    write was attempted, whether the write succeeded or not. *)
Theorem exit_status_reflects_the_calls (args : Args) (w : World) :
  (exit_code args w = 0 \/ exit_code args w = 1)
  /\ (exit_code args w = 0 <->
      exists ok, s3_calls (events args w)
                 = [ Upload (run_versioned_key args) true;
                     Upload (run_latest_key args) true;
                     GetManifest manifest_key; PutManifest manifest_key ok ]).
Proof.
  destruct (run_calls args w)
    as [(E & Hx & _) | [(E & Hx & _) | [(E & Hx & _)
        | [(E & Hx & _) | (ok & E & Hx & _)]]]]; rewrite E, Hx.
  1-4: split; [now right | split; [discriminate | intros (ok & Hok); discriminate Hok]].
  split; [now left | split; [intros _; now exists ok | reflexivity]].
Qed.

(** * What the uploads carry *)

Lemma object_metadata_items (version : string) (p : Platform) (a : Arch)
    (now : datetime) (file_hash : string) (signed notarized : bool)
    (commit_sha : option string) :
  object_metadata version (platform_str p) (arch_str a) now file_hash signed
    notarized commit_sha
  = [ ("version", version); ("platform", platform_str p); ("arch", arch_str a);
      ("build-date", timestamp now); ("sha256", file_hash);
      ("signed", str_lower_bool signed) ]
    ++ match p with
       | macos => [ ("notarized", str_lower_bool notarized) ]
       | windows => []
       end
    ++ match commit_sha with
       | Some c => if String.eqb c "" then [] else [ ("commit-sha", c) ]
       | None => []
       end.
Proof.
  unfold object_metadata.
  destruct commit_sha as [c|]; cbn [truthy fmt default];
    [destruct (String.eqb c "")|]; destruct p; reflexivity.
Qed.

(** Every upload of a run is one of its two upload events. *)
Lemma upload_events_of_a_run (args : Args) (w : World) (file : string)
    (bucket : option string) (key ct : string) (md : list (string * string))
    (ok : bool) :
  EvUploadFile file bucket key ct md ok ∈ events args w ->
  exists content,
    files w !! arg_file args = Some (RegularFile content)
    /\ EvUploadFile file bucket key ct md ok = upload_event args w content key ok.
Proof.
  assert (Hnone : forall evs, omap upload_metadata evs = [] ->
                              EvUploadFile file bucket key ct md ok ∉ evs).
  { intros evs Hevs Hin.
    assert (md ∈ omap upload_metadata evs) as Hmd
      by (apply list_elem_of_omap; eexists; split; [exact Hin | reflexivity]).
    rewrite Hevs in Hmd. inversion Hmd. }
  destruct (main_run_shape args w) as
    [Hc | Hc Hf | e Hc Hf Ho | content e Hc Hf Hcl | content e Hc Hf Hcl Hv
     | content e Hc Hf Hcl Hv Hl | content s' Hc Hf Hcl Hv Hl Hu
     | content e s' Hc Hf Hcl Hv Hl Hu]; intros Hin.
  1-4: apply list_elem_of_In in Hin; cbn [In] in Hin; intuition discriminate.
  1-2: exists content; split; [assumption|];
       apply list_elem_of_In in Hin; unfold failure_report, client_event in Hin;
       unfold upload_event in *; cbn [In app] in Hin; intuition congruence.
  - destruct (run_update_calls _ _ _ _ _ Hu) as (evs & E & _ & Hup).
    rewrite E in Hin. apply elem_of_app in Hin as [Hin | Hin];
      [|now apply Hnone in Hin].
    exists content. split; [assumption|].
    apply list_elem_of_In in Hin. unfold uploaded, client_event in Hin.
    unfold upload_event in *. cbn [In app trace] in Hin. intuition congruence.
  - destruct (run_update_calls _ _ _ _ _ Hu) as (evs & E & _ & Hup).
    rewrite E in Hin. apply elem_of_app in Hin as [Hin | Hin];
      [apply elem_of_app in Hin as [Hin | Hin]; [|now apply Hnone in Hin]|].
    + exists content. split; [assumption|].
      apply list_elem_of_In in Hin. unfold uploaded, client_event in Hin.
      unfold upload_event in *. cbn [In app trace] in Hin. intuition congruence.
    + apply list_elem_of_In in Hin. unfold failure_report in Hin.
      cbn [In] in Hin. intuition discriminate.
Qed.

(** Property X4. Both uploads of a run send the same file to the same bucket with the
    same content type and the same metadata; only the key differs. The file
    is named by the path object as a string, [str(Path(file))], which may
    differ from the string given with [--file]. The metadata holds version,
    platform, arch, the first clock reading, the hash of the file and the
    signed flag as a lower-case word, [notarized] when the platform is macos
    and only then, and [commit-sha] when one was given and is not empty. *)
Theorem uploads_carry_the_same_payload (args : Args) (w : World) (file : string)
    (bucket : option string) (key ct : string) (md : list (string * string))
    (ok : bool) :
  EvUploadFile file bucket key ct md ok ∈ events args w ->
  exists content,
    files w !! arg_file args = Some (RegularFile content)
    /\ file = Pathlib.to_str (arg_file args)
    /\ bucket = environ w !! "R2_BUCKET"
    /\ ct = get_content_type (Pathlib.name (arg_file args))
    /\ md = [ ("version", arg_version args);
              ("platform", platform_str (arg_platform args));
              ("arch", arch_str (arg_arch args));
              ("build-date", isoformat (clock w 0) +:+ "Z");
              ("sha256", Hashlib.sha256_hex content);
              ("signed", if arg_signed args then "true" else "false") ]
            ++ match arg_platform args with
               | macos => [ ("notarized", if arg_notarized args then "true" else "false") ]
               | windows => []
               end
            ++ match arg_commit_sha args with
               | Some c => if String.eqb c "" then [] else [ ("commit-sha", c) ]
               | None => []
               end.
Proof.
  intros Hin. destruct (upload_events_of_a_run _ _ _ _ _ _ _ _ Hin) as (content & Hf & E).
  exists content. unfold upload_event, run_metadata in E.
  rewrite object_metadata_items in E. injection E as -> -> -> ->.
  repeat split; assumption || reflexivity.
Qed.

Lemma uploads_carry_the_same_payload_witness :
  EvUploadFile "dist/Ami-1.1.0-macos-arm64.dmg" (Some "ami")
    "releases/latest/macos-arm64/Ami-latest-macos-arm64.dmg"
    "application/x-apple-diskimage"
    (run_metadata Sample.args (Sample.world (inl NoSuchKey)) (list_byte_of_string "abc"))
    true
  ∈ events (Sample.args_at "./dist/Ami-1.1.0-macos-arm64.dmg")
      (Sample.world (inl NoSuchKey))
  /\ exists content,
       files (Sample.world (inl NoSuchKey)) !! "./dist/Ami-1.1.0-macos-arm64.dmg"
         = Some (RegularFile content)
       /\ "dist/Ami-1.1.0-macos-arm64.dmg"
          = Pathlib.to_str "./dist/Ami-1.1.0-macos-arm64.dmg"
       /\ run_metadata Sample.args (Sample.world (inl NoSuchKey))
            (list_byte_of_string "abc")
          = [ ("version", "1.1.0"); ("platform", "macos"); ("arch", "arm64");
              ("build-date", "2024-01-02T03:04:05.123456Z");
              ("sha256", Hashlib.sha256_hex content);
              ("signed", "false"); ("notarized", "true") ].
Proof.
  assert (Hin : EvUploadFile "dist/Ami-1.1.0-macos-arm64.dmg" (Some "ami")
                  "releases/latest/macos-arm64/Ami-latest-macos-arm64.dmg"
                  "application/x-apple-diskimage"
                  (run_metadata Sample.args (Sample.world (inl NoSuchKey))
                     (list_byte_of_string "abc"))
                  true
                ∈ events (Sample.args_at "./dist/Ami-1.1.0-macos-arm64.dmg")
                    (Sample.world (inl NoSuchKey))).
  { vm_compute. right. right. left. }
  split; [exact Hin|].
  destruct (uploads_carry_the_same_payload
              (Sample.args_at "./dist/Ami-1.1.0-macos-arm64.dmg")
              (Sample.world (inl NoSuchKey)) _ _ _ _ _ _ Hin)
    as (content & Hf & Hfile & _ & _ & Hmd).
  exists content. split; [exact Hf | split; [exact Hfile | exact Hmd]].
Defined.

(** * More on names and keys *)

(** The name of a path holds no slash. *)
Lemma name_has_no_slash (path : string) :
  PyStr.has_char "/" (Pathlib.name path) = false.
Proof.
  unfold Pathlib.name, Pathlib.parts, PyStr.split.
  pose proof (split_from_fields "/" path "" eq_refl) as H.
  induction H as [|f l Hf _ IH]; simpl; [reflexivity|].
  destruct (Pathlib.kept f); [|exact IH].
  simpl. destruct (List.filter Pathlib.kept l) eqn:E; [exact Hf | exact IH].
Qed.

Lemma append_inj_length (x x' y y' : string) :
  String.length x = String.length x' ->
  x +:+ y = x' +:+ y' -> x = x' /\ y = y'.
Proof.
  revert x'. induction x as [|a x IH]; intros [|a' x'] Hlen H;
    try discriminate Hlen; str_simpl.
  - now split.
  - revert H. str_simpl. intros H. injection H as -> H. injection Hlen as Hlen.
    destruct (IH x' Hlen H) as [-> ->]. now split.
Qed.

(** A string splits in one way at its last separator. *)
Lemma last_separator_unique (c : ascii) (x x' f f' : string) :
  PyStr.has_char c f = false -> PyStr.has_char c f' = false ->
  x +:+ String c f = x' +:+ String c f' -> x = x' /\ f = f'.
Proof.
  intros Hf Hf' H.
  pose proof (rfind_from_last c x f 0 (-1) Hf) as R.
  rewrite H, rfind_from_last in R by assumption.
  destruct (append_inj_length x x' (String c f) (String c f')) as [-> E];
    [lia | assumption |].
  injection E as ->. now split.
Qed.

(** Property X5. The versioned key determines version, platform, architecture and file
    name: two uploads write the same versioned object only when all four
    agree. *)
Theorem versioned_key_determines_its_inputs (version version' : string)
    (p p' : Platform) (a a' : Arch) (path path' : string) :
  versioned_key version (platform_str p) (arch_str a) (Pathlib.name path)
  = versioned_key version' (platform_str p') (arch_str a') (Pathlib.name path') ->
  version = version' /\ p = p' /\ a = a' /\ Pathlib.name path = Pathlib.name path'.
Proof.
  unfold versioned_key. intros H.
  assert (Hre : forall v pa f, "releases/v" +:+ v +:+ "/" +:+ pa +:+ "/" +:+ f
                = (("releases/v" +:+ v) +:+ String "/" pa) +:+ String "/" f).
  { intros. now rewrite !append_assoc. }
  rewrite !Hre in H.
  apply last_separator_unique in H as [H Hname]; try apply name_has_no_slash.
  apply last_separator_unique in H as [Hv Hpa];
    [| destruct p, a; reflexivity | destruct p', a'; reflexivity].
  revert Hv. str_simpl. intros Hv. injection Hv as ->.
  repeat split; [| | exact Hname];
    destruct p, a, p', a'; try reflexivity; discriminate Hpa.
Qed.

Lemma versioned_key_determines_its_inputs_witness :
  versioned_key "1.1.0" (platform_str macos) (arch_str arm64)
    (Pathlib.name "dist/Ami-1.1.0-macos-arm64.dmg")
  = versioned_key "1.1.0" (platform_str macos) (arch_str arm64)
      (Pathlib.name "out/./Ami-1.1.0-macos-arm64.dmg")
  /\ Pathlib.name "dist/Ami-1.1.0-macos-arm64.dmg"
     = Pathlib.name "out/./Ami-1.1.0-macos-arm64.dmg".
Proof.
  split; [reflexivity|].
  apply (versioned_key_determines_its_inputs "1.1.0" "1.1.0" macos macos arm64 arm64
           "dist/Ami-1.1.0-macos-arm64.dmg" "out/./Ami-1.1.0-macos-arm64.dmg").
  reflexivity.
Defined.

(** Property X6. Whatever the arguments, the versioned key, the latest key and the key of
    the manifest are three different keys: an upload never overwrites the
    manifest or the other upload. *)
Theorem object_keys_are_apart (version platform arch filename platform' arch'
    suffix : string) :
  versioned_key version platform arch filename <> latest_key platform' arch' suffix
  /\ versioned_key version platform arch filename <> manifest_key
  /\ latest_key platform' arch' suffix <> manifest_key.
Proof.
  unfold versioned_key, latest_key, manifest_key.
  repeat split; str_simpl; intros H; discriminate H.
Qed.

(** Property X7. A name without a dot, a name whose only dot is the first character and
    a name that ends in a dot have no extension the table knows: their
    content type is the fallback. *)
Theorem names_without_extension_get_the_fallback (path : string) :
  PyStr.has_char "." (Pathlib.name path) = false
  \/ (exists rest, Pathlib.name path = String "." rest
                   /\ PyStr.has_char "." rest = false)
  \/ (exists stem, Pathlib.name path = stem +:+ ".") ->
  get_content_type path = "application/octet-stream".
Proof.
  intros H.
  assert (Hs : PyStr.lower (Pathlib.suffix path) = "" \/
               PyStr.lower (Pathlib.suffix path) = ".").
  { unfold Pathlib.suffix, Pathlib.suffix_of_name, PyStr.rfind, PyStr.len.
    destruct H as [H | [(rest & -> & H) | (stem & ->)]].
    - rewrite rfind_from_absent by assumption. now left.
    - change (String "." rest) with ("" +:+ String "." rest).
      rewrite rfind_from_last by assumption. now left.
    - change (stem +:+ ".") with (stem +:+ String "." "").
      rewrite rfind_from_last, length_append by reflexivity. simpl String.length.
      replace (0 + Z.of_nat (String.length stem) <?
               Z.of_nat (String.length stem + 1) - 1) with false
        by (symmetry; apply Z.ltb_ge; lia).
      rewrite andb_false_r. now left. }
  unfold get_content_type. destruct Hs as [-> | ->]; reflexivity.
Qed.

Lemma names_without_extension_get_the_fallback_witness :
  PyStr.has_char "." (Pathlib.name "dist/Ami-installer") = false
  /\ get_content_type "dist/Ami-installer" = "application/octet-stream"
  /\ get_content_type "dist/.dmg" = "application/octet-stream".
Proof.
  split; [reflexivity|]. split.
  - apply names_without_extension_get_the_fallback. left. reflexivity.
  - apply names_without_extension_get_the_fallback. right. left.
    exists "dmg". split; reflexivity.
Defined.

(** * The document the update writes *)

(** The outcome of the update and the document it hands to PutObject, by
    what GetObject answers. *)
Lemma update_writes (w : World) (s : state) (bucket : option string)
    (version platform_arch lkey : string) (file_size : Z) (file_hash : string)
    (signed notarized : bool) :
  let info := download_info (environ w !! "R2_ENDPOINT") bucket lkey file_size
                file_hash signed notarized platform_arch in
  let run := update_metadata_json bucket version platform_arch lkey file_size
               file_hash signed notarized w s in
  let fresh :=
    fst run = Ok tt
    /\ put_docs (trace (snd run))
       = put_docs (trace s)
         ++ [ merged_manifest version (timestamp (clock w (S (ticks s))))
                platform_arch info
                (shell_items version (timestamp (clock w (ticks s)))) [] ] in
  let raises (e : exn) :=
    fst run = Raise e /\ put_docs (trace (snd run)) = put_docs (trace s) in
  match get_object_result w manifest_key with
  | inl _ | inr (BodyInvalid _) => fresh
  | inr (BodyJson (JDict m)) =>
      match dict_get "downloads" m with
      | Some (JDict d) =>
          fst run = Ok tt
          /\ put_docs (trace (snd run))
             = put_docs (trace s)
               ++ [ merged_manifest version (timestamp (clock w (ticks s)))
                      platform_arch info m d ]
      | Some _ => exists msg, raises (TypeError msg)
      | None => raises (KeyError "downloads")
      end
  | inr (BodyJson _) => exists msg, raises (TypeError msg)
  end.
Proof.
  cbv zeta. unfold update_metadata_json. unfold_run. fold manifest_key.
  destruct (get_object_result w manifest_key) as [e | [e | j]]; reduce_run.
  1-2: destruct (is_NoSuchKey e); unfold_run;
       cbn [setitem getitem dict_get dict_set String.eqb Ascii.eqb Bool.eqb];
       unfold_run;
       match goal with
       | |- context [put_object_raises ?w' ?k ?doc] =>
           destruct (put_object_raises w' k doc)
       end; cbn [fst snd trace]; rewrite ?put_docs_app;
       cbn [put_docs omap list_omap put_doc]; rewrite ?app_nil_r;
       split; reflexivity.
  destruct j as [| b | z | r | str | l | m]; cbn [setitem getitem]; unfold_run.
  1-6: eexists; cbn [fst snd trace]; rewrite ?put_docs_app;
       cbn [put_docs omap list_omap put_doc]; rewrite ?app_nil_r;
       split; reflexivity.
  rewrite !dict_get_set_ne by discriminate.
  destruct (dict_get "downloads" m) as [[| b | z | r | str | l | d]|];
    cbn [setitem]; unfold_run.
  1-6,8: try eexists; cbn [fst snd trace]; rewrite ?put_docs_app;
         cbn [put_docs omap list_omap put_doc]; rewrite ?app_nil_r;
         split; reflexivity.
  match goal with
  | |- context [put_object_raises ?w' ?k ?doc] =>
      destruct (put_object_raises w' k doc)
  end; cbn [fst snd trace]; rewrite ?put_docs_app;
  cbn [put_docs omap list_omap put_doc]; rewrite ?app_nil_r;
  split; reflexivity.
Qed.

(** The same for the update of a run, which starts after the uploads. *)
Lemma run_update_writes (args : Args) (w : World) (content : list byte) :
  let info := download_info (environ w !! "R2_ENDPOINT") (environ w !! "R2_BUCKET")
                (run_latest_key args) (Z.of_nat (length content))
                (Hashlib.sha256_hex content) (arg_signed args) (arg_notarized args)
                (platform_str (arg_platform args) +:+ "-" +:+ arch_str (arg_arch args)) in
  let doc (t : nat) (m d : list (string * json)) :=
    merged_manifest (arg_version args) (timestamp (clock w t))
      (platform_str (arg_platform args) +:+ "-" +:+ arch_str (arg_arch args))
      info m d in
  let raises (e : exn) :=
    fst (run_update args w content) = Raise e
    /\ put_docs (trace (snd (run_update args w content))) = [] in
  match get_object_result w manifest_key with
  | inl _ | inr (BodyInvalid _) =>
      fst (run_update args w content) = Ok tt
      /\ put_docs (trace (snd (run_update args w content)))
         = [ doc 2%nat (shell_items (arg_version args) (timestamp (clock w 1))) [] ]
  | inr (BodyJson (JDict m)) =>
      match dict_get "downloads" m with
      | Some (JDict d) =>
          fst (run_update args w content) = Ok tt
          /\ put_docs (trace (snd (run_update args w content))) = [ doc 1%nat m d ]
      | Some _ => exists msg, raises (TypeError msg)
      | None => raises (KeyError "downloads")
      end
  | inr (BodyJson _) => exists msg, raises (TypeError msg)
  end.
Proof.
  cbv zeta. unfold run_update.
  exact (update_writes w (uploaded args w content) (environ w !! "R2_BUCKET")
           (arg_version args)
           (platform_str (arg_platform args) +:+ "-" +:+ arch_str (arg_arch args))
           (run_latest_key args) (Z.of_nat (length content))
           (Hashlib.sha256_hex content) (arg_signed args) (arg_notarized args)).
Qed.

(** A run whose uploads succeeded, by its update. *)
Lemma uploaded_run (args : Args) (w : World) (content : list byte) :
  forallb truthy (credentials w) = true ->
  files w !! arg_file args = Some (RegularFile content) ->
  client_raises w = None ->
  upload_file_raises w (run_versioned_key args) = None ->
  upload_file_raises w (run_latest_key args) = None ->
  match fst (run_update args w content) with
  | Ok _ =>
      exit_code args w = 0
      /\ events args w = trace (snd (run_update args w content))
  | Raise e =>
      exit_code args w = 1
      /\ events args w = trace (snd (run_update args w content)) ++ failure_report e
  end.
Proof.
  intros Hc Hf Hcl Hv Hl.
  pose proof (lookup_normal _ _ _ Hf) as Hn.
  pose proof (lookup_opened _ _ _ Hf) as Ho.
  destruct (main_run_shape args w) as
    [Hc' | Hc' Hf' | e Hc' Hf' Ho' | c e Hc' Hf' Hcl' | c e Hc' Hf' Hcl' Hv'
     | c e Hc' Hf' Hcl' Hv' Hl' | c s' Hc' Hf' Hcl' Hv' Hl' Hu
     | c e s' Hc' Hf' Hcl' Hv' Hl' Hu]; try congruence.
  all: assert (c = content) as -> by congruence; rewrite Hu; now split.
Qed.

(** Property X8. After two successful uploads the run succeeds exactly when the update
    ends normally: when the manifest is absent, cannot be fetched or read, or
    is a JSON object whose [downloads] is an object; the answer of PutObject
    plays no part. On every other JSON value the update raises ([KeyError]
    when [downloads] is missing, [TypeError] otherwise), nothing is written
    to the manifest, and the run reports an upload error and exits with
    status 1. *)
Theorem success_depends_on_the_fetched_manifest (args : Args) (w : World)
    (content : list byte) :
  forallb truthy (credentials w) = true ->
  files w !! arg_file args = Some (RegularFile content) ->
  client_raises w = None ->
  upload_file_raises w (run_versioned_key args) = None ->
  upload_file_raises w (run_latest_key args) = None ->
  let fails (e : exn) :=
    exit_code args w = 1
    /\ put_docs (events args w) = []
    /\ exists pre, events args w = pre ++ failure_report e in
  match get_object_result w manifest_key with
  | inl _ | inr (BodyInvalid _) => exit_code args w = 0
  | inr (BodyJson (JDict m)) =>
      match dict_get "downloads" m with
      | Some (JDict _) => exit_code args w = 0
      | Some _ => exists msg, fails (TypeError msg)
      | None => fails (KeyError "downloads")
      end
  | inr (BodyJson _) => exists msg, fails (TypeError msg)
  end.
Proof.
  intros Hc Hf Hcl Hv Hl. cbv zeta.
  pose proof (uploaded_run args w content Hc Hf Hcl Hv Hl) as Hrun.
  pose proof (run_update_writes args w content) as Hw. cbv zeta in Hw.
  assert (Hfail : forall e,
             fst (run_update args w content) = Raise e /\
             put_docs (trace (snd (run_update args w content))) = [] ->
             exit_code args w = 1 /\ put_docs (events args w) = [] /\
             exists pre, events args w = pre ++ failure_report e).
  { intros e [He Hd]. rewrite He in Hrun. destruct Hrun as [Hx Hev].
    rewrite Hev, put_docs_app, Hd. repeat split; eauto. }
  assert (Hok : forall docs,
             fst (run_update args w content) = Ok tt /\
             put_docs (trace (snd (run_update args w content))) = docs ->
             exit_code args w = 0).
  { intros docs [He _]. rewrite He in Hrun. apply Hrun. }
  destruct (get_object_result w manifest_key) as [e | [e | j]]; eauto.
  destruct j as [| b | z | r | str | l | m];
    try (destruct Hw as (msg & Hw); exists msg; now apply Hfail).
  destruct (dict_get "downloads" m) as [[| b | z | r | str | l | d]|]; eauto;
    destruct Hw as (msg & Hw); exists msg; now apply Hfail.
Qed.

Lemma success_depends_on_the_fetched_manifest_witness :
  forallb truthy (credentials (Sample.world (inr (BodyJson (JList []))))) = true
  /\ files (Sample.world (inr (BodyJson (JList [])))) !! arg_file Sample.args
     = Some (RegularFile (list_byte_of_string "abc"))
  /\ exists msg,
       exit_code Sample.args (Sample.world (inr (BodyJson (JList [])))) = 1
       /\ put_docs (events Sample.args (Sample.world (inr (BodyJson (JList []))))) = []
       /\ exists pre, events Sample.args (Sample.world (inr (BodyJson (JList []))))
                      = pre ++ failure_report (TypeError msg).
Proof.
  split; [reflexivity|]. split; [reflexivity|].
  exact (success_depends_on_the_fetched_manifest Sample.args
           (Sample.world (inr (BodyJson (JList [])))) (list_byte_of_string "abc")
           eq_refl eq_refl eq_refl eq_refl eq_refl).
Defined.

(** * The written manifest and the uploaded artifact *)

Lemma put_docs_of_a_run (args : Args) (w : World) :
  put_docs (events args w) = []
  \/ exists content t m d,
       files w !! arg_file args = Some (RegularFile content)
       /\ put_docs (events args w)
          = [ merged_manifest (arg_version args) (timestamp (clock w t))
                (platform_str (arg_platform args) +:+ "-" +:+ arch_str (arg_arch args))
                (download_info (environ w !! "R2_ENDPOINT") (environ w !! "R2_BUCKET")
                   (run_latest_key args) (Z.of_nat (length content))
                   (Hashlib.sha256_hex content) (arg_signed args)
                   (arg_notarized args)
                   (platform_str (arg_platform args) +:+ "-" +:+ arch_str (arg_arch args)))
                m d ].
Proof.
  destruct (main_run_shape args w) as
    [Hc | Hc Hf | e Hc Hf Ho | content e Hc Hf Hcl | content e Hc Hf Hcl Hv
     | content e Hc Hf Hcl Hv Hl | content s' Hc Hf Hcl Hv Hl Hu
     | content e s' Hc Hf Hcl Hv Hl Hu].
  1-6: now left.
  all: pose proof (run_update_writes args w content) as Hw; cbv zeta in Hw;
       rewrite Hu in Hw; cbn [fst snd] in Hw; rewrite ?put_docs_app;
       cbn [failure_report put_docs omap list_omap put_doc]; rewrite ?app_nil_r;
       fold (put_docs (trace s')).
  all: destruct (get_object_result w manifest_key) as [e0 | [e0 | j]];
       [ | | destruct j as [| b | z | r | str | l | m];
             [ .. | destruct (dict_get "downloads" m) as [[| b | z | r | str | l | d]|] ] ].
  all: try (destruct Hw as (msg & _ & ->); now left).
  all: try (destruct Hw as (_ & ->); now left).
  all: destruct Hw as (_ & ->); right; eauto 8.
Qed.

(** Property X9. When a run writes the manifest it writes it once, and the document
    describes the artifact that was uploaded: its [version] is the version
    of the run and its entry for the platform and architecture holds the URL
    of the latest key, the size of the file, the hash that the uploads carry
    in their metadata and the signed flag, with [notarized] for macos. *)
Theorem written_manifest_describes_the_artifact (args : Args) (w : World)
    (doc : json) :
  doc ∈ put_docs (events args w) ->
  exists (content : list byte) (m d : list (string * json)),
    files w !! arg_file args = Some (RegularFile content)
    /\ put_docs (events args w) = [doc]
    /\ doc = JDict m
    /\ dict_get "version" m = Some (JStr (arg_version args))
    /\ dict_get "downloads" m = Some (JDict d)
    /\ dict_get (platform_str (arg_platform args) +:+ "-" +:+ arch_str (arg_arch args)) d
       = Some (JDict ([ ("url", JStr (fmt (environ w !! "R2_ENDPOINT") +:+ "/"
                                      +:+ fmt (environ w !! "R2_BUCKET") +:+ "/"
                                      +:+ run_latest_key args));
                        ("size", JInt (Z.of_nat (length content)));
                        ("sha256", JStr (Hashlib.sha256_hex content));
                        ("signed", JBool (arg_signed args)) ]
                      ++ match arg_platform args with
                         | macos => [ ("notarized", JBool (arg_notarized args)) ]
                         | windows => []
                         end)).
Proof.
  intros Hin.
  destruct (put_docs_of_a_run args w) as [E | (content & t & m & d & Hf & E)];
    rewrite E in Hin; [inversion Hin|].
  apply list_elem_of_singleton in Hin. subst doc.
  exists content. unfold merged_manifest. do 2 eexists.
  split; [exact Hf|]. split; [exact E|]. split; [reflexivity|].
  split; [|split].
  - rewrite !dict_get_set_ne by discriminate. apply dict_get_set_eq.
  - apply dict_get_set_eq.
  - rewrite dict_get_set_eq, download_info_entry. reflexivity.
Qed.

Lemma written_manifest_describes_the_artifact_witness :
  exists doc,
    doc ∈ put_docs (events Sample.args (Sample.world (inr (BodyJson Sample.prior))))
    /\ exists m d,
         doc = JDict m
         /\ dict_get "downloads" m = Some (JDict d)
         /\ dict_get "macos-arm64" d
            = Some (JDict
                 [ ("url", JStr "https://acct.r2.example/ami/releases/latest/macos-arm64/Ami-latest-macos-arm64.dmg");
                   ("size", JInt 3);
                   ("sha256", JStr (Hashlib.sha256_hex (list_byte_of_string "abc")));
                   ("signed", JBool false); ("notarized", JBool true) ]).
Proof.
  assert (Hdocs : exists doc,
            put_docs (events Sample.args (Sample.world (inr (BodyJson Sample.prior))))
            = [doc]).
  { vm_compute. eexists. reflexivity. }
  destruct Hdocs as (doc & Hdocs). exists doc.
  assert (Hin : doc ∈ put_docs (events Sample.args
                                  (Sample.world (inr (BodyJson Sample.prior)))))
    by (rewrite Hdocs; left).
  split; [exact Hin|].
  destruct (written_manifest_describes_the_artifact Sample.args
              (Sample.world (inr (BodyJson Sample.prior))) doc Hin)
    as (content & m & d & Hf & _ & Hm & _ & Hd & He).
  exists m, d. split; [exact Hm|]. split; [exact Hd|].
  assert (Hf' : files (Sample.world (inr (BodyJson Sample.prior))) !! arg_file Sample.args
                = Some (RegularFile (list_byte_of_string "abc"))) by reflexivity.
  rewrite Hf' in Hf. injection Hf as <-. exact He.
Defined.

(** * Layout of the manifest and repeated updates *)

Section DictLayout.
Context {V : Type}.
Implicit Types (d : list (string * V)) (k : string) (v : V).

Lemma dict_set_keys d k v :
  List.map fst (dict_set k v d)
  = match dict_get k d with
    | Some _ => List.map fst d
    | None => List.map fst d ++ [k]
    end.
Proof.
  induction d as [|[k' v'] d IH]; simpl; [reflexivity|].
  destruct (String.eqb_spec k' k) as [->|Hne]; simpl; [reflexivity|].
  rewrite IH. now destruct (dict_get k d).
Qed.

Lemma dict_set_same d k v : dict_get k d = Some v -> dict_set k v d = d.
Proof.
  induction d as [|[k' v'] d IH]; simpl; [discriminate|].
  destruct (String.eqb_spec k' k) as [->|Hne]; intros H.
  - now injection H as ->.
  - now rewrite IH.
Qed.

End DictLayout.

(** Property X10. Updating keeps the layout of a manifest that has the three top-level
    fields: they stay where they are, every other top-level field is carried
    over as it is, and in [downloads] an existing entry for the platform is
    replaced in place while a new one goes to the end; no key is moved or
    repeated. *)
Theorem manifest_layout_is_kept (w : World) (s : state) (bucket : option string)
    (version platform_arch lkey : string) (file_size : Z) (file_hash : string)
    (signed notarized : bool) (m d : list (string * json)) :
  get_object_result w manifest_key = inr (BodyJson (JDict m)) ->
  dict_get "downloads" m = Some (JDict d) ->
  is_Some (dict_get "version" m) ->
  is_Some (dict_get "release_date" m) ->
  exists m' d' : list (string * json),
    put_docs (trace (snd (update_metadata_json bucket version platform_arch lkey
                            file_size file_hash signed notarized w s)))
    = put_docs (trace s) ++ [JDict m']
    /\ dict_get "downloads" m' = Some (JDict d')
    /\ List.map fst m' = List.map fst m
    /\ (forall k, k <> "version" -> k <> "release_date" -> k <> "downloads" ->
                  dict_get k m' = dict_get k m)
    /\ List.map fst d'
       = match dict_get platform_arch d with
         | Some _ => List.map fst d
         | None => List.map fst d ++ [platform_arch]
         end.
Proof.
  intros Hget Hd [v Hv] [r Hr].
  pose proof (update_writes w s bucket version platform_arch lkey file_size
                file_hash signed notarized) as H.
  cbv zeta in H. rewrite Hget, Hd in H. destruct H as [_ H].
  unfold merged_manifest in H. do 2 eexists. split; [exact H|].
  split; [apply dict_get_set_eq|]. split; [|split].
  - rewrite !dict_set_keys, !dict_get_set_ne, Hd, Hr, Hv by discriminate.
    reflexivity.
  - intros k H1 H2 H3. now rewrite !dict_get_set_ne by congruence.
  - apply dict_set_keys.
Qed.

Lemma manifest_layout_is_kept_witness :
  get_object_result (Sample.world (inr (BodyJson Sample.prior))) manifest_key
    = inr (BodyJson Sample.prior)
  /\ exists m' d' : list (string * json),
       put_docs (trace (snd (update_metadata_json (Some "ami") "1.1.0" "macos-arm64"
                               "k" 20 "h2" false true
                               (Sample.world (inr (BodyJson Sample.prior))) initial)))
       = [JDict m']
       /\ dict_get "downloads" m' = Some (JDict d')
       /\ List.map fst m' = ["version"; "release_date"; "downloads"]
       /\ List.map fst d' = ["windows-x64"; "macos-arm64"].
Proof.
  split; [reflexivity|].
  destruct (manifest_layout_is_kept (Sample.world (inr (BodyJson Sample.prior)))
              initial (Some "ami") "1.1.0" "macos-arm64" "k" 20 "h2" false true
              [ ("version", JStr "1.0.0"); ("release_date", JStr "t0");
                ("downloads",
                 JDict [ ("windows-x64",
                          JDict [ ("url", JStr "u1"); ("size", JInt 10);
                                  ("sha256", JStr "h1"); ("signed", JBool true) ]) ]) ]
              [ ("windows-x64",
                 JDict [ ("url", JStr "u1"); ("size", JInt 10);
                         ("sha256", JStr "h1"); ("signed", JBool true) ]) ]
              eq_refl eq_refl (ex_intro _ _ eq_refl) (ex_intro _ _ eq_refl))
    as (m' & d' & H1 & H2 & H3 & _ & H5).
  exists m', d'. repeat split; assumption.
Defined.

(** Property X11. Publishing the same artifact again changes nothing but the timestamp:
    when the document written by one update is what the next update with
    the same arguments fetches, the next update writes that document with a
    new [release_date] and no other change. *)
Theorem republishing_changes_the_timestamp_only (w w' : World) (s s' : state)
    (bucket : option string) (version platform_arch lkey : string)
    (file_size : Z) (file_hash : string) (signed notarized : bool) (doc : json) :
  put_docs (trace (snd (update_metadata_json bucket version platform_arch lkey
                          file_size file_hash signed notarized w s)))
  = put_docs (trace s) ++ [doc] ->
  get_object_result w' manifest_key = inr (BodyJson doc) ->
  environ w' !! "R2_ENDPOINT" = environ w !! "R2_ENDPOINT" ->
  exists m1 : list (string * json),
    doc = JDict m1
    /\ fst (update_metadata_json bucket version platform_arch lkey file_size
              file_hash signed notarized w' s') = Ok tt
    /\ put_docs (trace (snd (update_metadata_json bucket version platform_arch lkey
                               file_size file_hash signed notarized w' s')))
       = put_docs (trace s')
         ++ [ JDict (dict_set "release_date"
                       (JStr (isoformat (clock w' (ticks s')) +:+ "Z")) m1) ].
Proof.
  intros Hdoc Hget' Henv.
  assert (Hfirst : exists t m0 d0,
            doc = merged_manifest version t platform_arch
                    (download_info (environ w !! "R2_ENDPOINT") bucket lkey
                       file_size file_hash signed notarized platform_arch) m0 d0).
  { pose proof (update_writes w s bucket version platform_arch lkey file_size
                  file_hash signed notarized) as H.
    cbv zeta in H. rewrite Hdoc in H.
    assert (Hno : put_docs (trace s) ++ [doc] <> put_docs (trace s)).
    { intros E. apply (f_equal length) in E. rewrite length_app in E.
      simpl in E. lia. }
    destruct (get_object_result w manifest_key) as [e | [e | j]];
      [ | | destruct j as [| b | z | r | str | l | m];
            [ .. | destruct (dict_get "downloads" m) as [[| b | z | r | str | l | d]|] ] ].
    all: try (destruct H as (msg & _ & H); contradiction).
    all: try (destruct H as (_ & H); contradiction).
    all: destruct H as (_ & H); apply app_inv_head in H; injection H as ->; eauto. }
  destruct Hfirst as (t & m0 & d0 & ->). unfold merged_manifest at 1.
  eexists. split; [reflexivity|].
  pose proof (update_writes w' s' bucket version platform_arch lkey file_size
                file_hash signed notarized) as H.
  cbv zeta in H. unfold merged_manifest at 1 in Hget'. rewrite Hget' in H.
  rewrite dict_get_set_eq, Henv in H. destruct H as [Hok H].
  split; [exact Hok|]. rewrite H. unfold merged_manifest, timestamp. do 3 f_equal.
  set (info := download_info _ _ _ _ _ _ _ _).
  set (d1 := dict_set platform_arch (JDict info) d0).
  set (inner := dict_set "release_date" (JStr t) (dict_set "version" (JStr version) m0)).
  rewrite (dict_set_same d1) by apply dict_get_set_eq.
  rewrite (dict_set_same (dict_set "downloads" (JDict d1) inner) "version")
    by (subst inner; rewrite !dict_get_set_ne by discriminate; apply dict_get_set_eq).
  apply dict_set_same. rewrite dict_get_set_ne by discriminate. apply dict_get_set_eq.
Qed.

Lemma republishing_changes_the_timestamp_only_witness :
  exists doc,
    put_docs (trace (snd (update_metadata_json (Some "ami") "1.1.0" "macos-arm64"
                            "k" 20 "h2" false true (Sample.world (inl NoSuchKey))
                            initial))) = [doc]
    /\ put_docs (trace (snd (update_metadata_json (Some "ami") "1.1.0" "macos-arm64"
                               "k" 20 "h2" false true
                               (Sample.world (inr (BodyJson doc))) initial)))
       = [doc].
Proof.
  assert (H : exists doc,
            put_docs (trace (snd (update_metadata_json (Some "ami") "1.1.0"
                                    "macos-arm64" "k" 20 "h2" false true
                                    (Sample.world (inl NoSuchKey)) initial)))
            = put_docs (trace initial) ++ [doc])
    by (vm_compute; eexists; reflexivity).
  destruct H as (doc & H). exists doc. split; [exact H|].
  destruct (republishing_changes_the_timestamp_only
              (Sample.world (inl NoSuchKey)) (Sample.world (inr (BodyJson doc)))
              initial initial (Some "ami") "1.1.0" "macos-arm64" "k" 20 "h2"
              false true doc H eq_refl eq_refl) as (m1 & -> & _ & H2).
  rewrite H2. vm_compute in H. injection H as <-. reflexivity.
Defined.

(** * The form of the hash *)

Module DigestFacts.
Import Hashlib.

Lemma compress_length (h : list Z) (block : list byte) :
  length h = 8%nat -> length (compress h block) = 8%nat.
Proof.
  intros H. unfold compress. rewrite length_map, length_combine, H. reflexivity.
Qed.

Lemma fold_compress_length (bs : list (list byte)) (h : list Z) :
  length h = 8%nat -> length (fold_left compress bs h) = 8%nat.
Proof.
  revert h. induction bs as [|b bs IH]; intros h H; simpl; [exact H|].
  apply IH. now apply compress_length.
Qed.

Lemma bytes_of_words_length (ws : list Z) :
  length (concat (List.map bytes_of_word ws)) = (4 * length ws)%nat.
Proof. induction ws as [|x ws IH]; simpl; [reflexivity | rewrite IH; lia]. Qed.

Lemma hex_length (l : list byte) : String.length (hex l) = (2 * length l)%nat.
Proof. induction l as [|b l IH]; simpl; [reflexivity | rewrite IH; lia]. Qed.

Lemma hex_digit_is_hex (n : Z) : 0 <= n < 16 -> is_lower_hex (hex_digit n) = true.
Proof.
  intros H. rewrite <- (Z2Nat.id n) by lia.
  assert (Hk : (Z.to_nat n < 16)%nat) by lia. revert Hk.
  generalize (Z.to_nat n) as k. intros k Hk.
  do 16 (destruct k as [|k]; [reflexivity|]). lia.
Qed.

Lemma byteZ_range (b : byte) : 0 <= byteZ b < 256.
Proof. unfold byteZ. pose proof (Byte.to_N_bounded b). lia. Qed.

Lemma hex_chars (l : list byte) : all_chars is_lower_hex (hex l) = true.
Proof.
  induction l as [|b l IH]; [reflexivity|].
  pose proof (byteZ_range b) as Hb. cbn [hex all_chars].
  rewrite !hex_digit_is_hex, IH; [reflexivity | |].
  - apply Z.mod_pos_bound. lia.
  - split; [apply Z.div_pos; lia | apply Z.div_lt_upper_bound; lia].
Qed.

Lemma sha256_length (msg : list byte) : length (sha256 msg) = 32%nat.
Proof.
  unfold sha256. rewrite bytes_of_words_length, fold_compress_length; reflexivity.
Qed.

End DigestFacts.

(** Property X12. The hash of a file, as it goes into the metadata and the manifest, is a
    string of 64 characters, each of them a digit or a letter from [a] to
    [f], whatever the content, the empty file included. *)
Theorem hash_is_64_lower_hex_characters (w : World) (s : state) (path : string)
    (content : list byte) :
  files w !! path = Some (RegularFile content) ->
  exists h : string,
    calculate_sha256 path w s = (Ok h, s)
    /\ String.length h = 64%nat
    /\ all_chars is_lower_hex h = true.
Proof.
  intros Hf. exists (Hashlib.sha256_hex content). apply lookup_opened in Hf.
  rewrite calculate_sha256_run, Hf. split; [reflexivity|].
  unfold Hashlib.sha256_hex.
  rewrite DigestFacts.hex_length, DigestFacts.sha256_length, DigestFacts.hex_chars.
  split; reflexivity.
Qed.

Lemma hash_is_64_lower_hex_characters_witness :
  files (Sample.world (inl NoSuchKey)) !! Sample.dmg
    = Some (RegularFile (list_byte_of_string "abc"))
  /\ exists h : string,
       calculate_sha256 Sample.dmg (Sample.world (inl NoSuchKey)) initial
       = (Ok h, initial)
       /\ String.length h = 64%nat.
Proof.
  split; [reflexivity|].
  destruct (hash_is_64_lower_hex_characters (Sample.world (inl NoSuchKey)) initial
              Sample.dmg (list_byte_of_string "abc") eq_refl) as (h & H1 & H2 & _).
  exists h. split; [exact H1 | exact H2].
Defined.

(** * What the update logs *)

(** Property X13. When the manifest cannot be read the update still makes its two calls
    and ends normally. A missing object is taken in silence; every other
    failure to fetch or read it prints one warning with the text of the
    exception; a failed write prints one warning too. The clock is read
    twice. *)
Theorem unreadable_manifest_is_logged (w : World) (s : state)
    (bucket : option string) (version platform_arch lkey : string) (file_size : Z)
    (file_hash : string) (signed notarized : bool) (e : exn) :
  get_object_result w manifest_key = inl e \/
  get_object_result w manifest_key = inr (BodyInvalid e) ->
  let doc :=
    JDict [ ("version", JStr version);
            ("release_date", JStr (isoformat (clock w (S (ticks s))) +:+ "Z"));
            ("downloads",
             JDict [ (platform_arch,
                      JDict (download_info (environ w !! "R2_ENDPOINT") bucket lkey
                               file_size file_hash signed notarized
                               platform_arch)) ]) ] in
  update_metadata_json bucket version platform_arch lkey file_size file_hash
    signed notarized w s
  = (Ok tt,
     Build_state
       (trace s
        ++ [ EvGetObject bucket manifest_key ]
        ++ match e with
           | NoSuchKey => []
           | _ => [ EvPrint ("   ⚠️  Warning: Could not read existing metadata: " +:+ exn_str e) ]
           end
        ++ match put_object_raises w manifest_key doc with
           | None => [ EvPutObject bucket manifest_key doc "application/json" true ]
           | Some e' =>
               [ EvPutObject bucket manifest_key doc "application/json" false;
                 EvPrint ("   ⚠️  Warning: Could not update metadata: " +:+ exn_str e') ]
           end)
       (S (S (ticks s)))).
Proof.
  intros Hget. cbv zeta. unfold update_metadata_json. unfold_run. fold manifest_key.
  destruct Hget as [-> | ->]; reduce_run.
  all: destruct e; cbn [is_NoSuchKey]; unfold_run;
       cbn [setitem getitem dict_get dict_set String.eqb Ascii.eqb Bool.eqb];
       unfold_run; unfold timestamp;
       match goal with
       | |- context [put_object_raises ?w' ?k ?doc] =>
           destruct (put_object_raises w' k doc)
       end; reduce_run; rewrite <- ?app_assoc; cbn [app]; reflexivity.
Qed.

Lemma unreadable_manifest_is_logged_witness :
  get_object_result Faults.world_storage_down manifest_key = inl (OtherError "timeout")
  /\ List.map (fun ev => match ev with EvPrint line => Some line | _ => None end)
       (trace (snd (update_metadata_json (Some "ami") "1.1.0" "macos-arm64" "k" 20
                      "h2" false true Faults.world_storage_down initial)))
     = [ None; Some "   ⚠️  Warning: Could not read existing metadata: timeout"; None; Some "   ⚠️  Warning: Could not update metadata: AccessDenied" ].
Proof.
  split; [reflexivity|].
  rewrite (unreadable_manifest_is_logged Faults.world_storage_down initial
             (Some "ami") "1.1.0" "macos-arm64" "k" 20 "h2" false true
             (OtherError "timeout") (or_introl eq_refl)).
  reflexivity.
Defined.

(** * Checks of the library models on known values *)

(** FIPS 180-4 test vectors, and [hashlib.sha256(b"a" * 5000)]. *)
Example sha256_abc :
  Hashlib.sha256_hex (list_byte_of_string "abc")
  = "ba7816bf8f01cfea414140de5dae2223b00361a396177a9cb410ff61f20015ad".
Proof. vm_compute. reflexivity. Qed.

Example sha256_empty :
  Hashlib.hexdigest Hashlib.new
  = "e3b0c44298fc1c149afbf4c8996fb92427ae41e4649b934ca495991b7852b855".
Proof. vm_compute. reflexivity. Qed.

Example sha256_two_updates :
  Hashlib.hexdigest
    (Hashlib.update
       (Hashlib.update Hashlib.new
          (list_byte_of_string "abcdbcdecdefdefgefghfghighijhijkijkljklmklmnlmn"))
       (list_byte_of_string "omnopnopq"))
  = "248d6a61d20638b8e5c026930c3e6039a33ce45964ff2167f6ecedd419db06c1".
Proof. vm_compute. reflexivity. Qed.

Example sha256_two_chunks :
  Hashlib.hexdigest
    (read_loop (S (50 * 100)) Hashlib.new (repeat "a"%byte (50 * 100)))
  = "c526c6222044dab5674de9c4ac7f4566ebb5e4d8bf9d8ea34c9cc8a7cc3c869c".
Proof. vm_compute. reflexivity. Qed.

Example name_of_path : Pathlib.name "a/b/./c.txt/" = "c.txt".
Proof. reflexivity. Qed.

(** [str(PurePosixPath(p))] for some [p]. *)
Example str_of_paths :
  List.map Pathlib.to_str
    [ ""; "."; "./"; "/"; "//"; "///"; "///a"; "//a"; "/a"; "./a"; "a/"; "a//b";
      "a/./b"; "a/../b"; "./dist/x.dmg"; "x.dmg/"; "a/."; "//a//b/" ]
  = [ "."; "."; "."; "/"; "//"; "/"; "/a"; "//a"; "/a"; "a"; "a"; "a/b";
      "a/b"; "a/../b"; "dist/x.dmg"; "x.dmg"; "a"; "//a/b" ].
Proof. reflexivity. Qed.

(** [os.stat] and [open] next to a regular file [x.dmg] and a directory
    [dir]. *)
Example stat_of_path_strings :
  let fs := FileSystem {[ "x.dmg" := RegularFile []; "dir" := Directory 4096 ]} in
  List.map (os_stat fs) [ ""; "x.dmg"; "./x.dmg"; "x.dmg/"; "x.dmg/."; "dir/"; "nope" ]
  = [ inl (FileNotFoundError ""); inr (RegularFile []); inr (RegularFile []);
      inl (NotADirectoryError "x.dmg/"); inl (NotADirectoryError "x.dmg/.");
      inr (Directory 4096); inl (FileNotFoundError "nope") ]
  /\ List.map (opened fs) [ ""; ".//x.dmg"; "dir/"; "." ]
     = [ inl (FileNotFoundError ""); inr []; inl (IsADirectoryError "dir/");
         inl (IsADirectoryError ".") ].
Proof. split; vm_compute; reflexivity. Qed.

(** The path object of the empty string and of [x.dmg/] exists where the
    string itself opens nothing. *)
Example path_object_exists :
  let w := Sample.world (inl NoSuchKey) in
  fst (path_exists "" w initial) = Ok true
  /\ fst (path_exists (Sample.dmg +:+ "/") w initial) = Ok true
  /\ fst (path_exists "nope.dmg" w initial) = Ok false.
Proof. repeat split; vm_compute; reflexivity. Qed.

Example suffix_of_hidden_file : Pathlib.suffix "dist/.dmg" = "".
Proof. reflexivity. Qed.

Example suffix_keeps_case : Pathlib.suffix "dist/Setup.EXE" = ".EXE".
Proof. reflexivity. Qed.

Example content_type_ignores_case : get_content_type "dist/Setup.EXE" = "application/x-msdownload".
Proof. reflexivity. Qed.

Example isoformat_whole_second :
  isoformat (Build_datetime 2024 1 2 3 4 5 0) = "2024-01-02T03:04:05".
Proof. reflexivity. Qed.

Example isoformat_microseconds :
  isoformat (Build_datetime 2024 1 2 3 4 5 1200) = "2024-01-02T03:04:05.001200".
Proof. reflexivity. Qed.

(** A run in which everything succeeds, and one in which PutObject fails. *)
Example sample_run_succeeds :
  exit_code Sample.args (Sample.world (inr (BodyJson Sample.prior))) = 0
  /\ s3_calls (events Sample.args (Sample.world (inr (BodyJson Sample.prior))))
     = [ Upload "releases/v1.1.0/macos-arm64/Ami-1.1.0-macos-arm64.dmg" true;
         Upload "releases/latest/macos-arm64/Ami-latest-macos-arm64.dmg" true;
         GetManifest "metadata/latest.json";
         PutManifest "metadata/latest.json" true ].
Proof. split; vm_compute; reflexivity. Qed.

Example sample_run_put_fails :
  exit_code Sample.args (Sample.world_put_fails (inl NoSuchKey)) = 0
  /\ List.last (events Sample.args (Sample.world_put_fails (inl NoSuchKey))) (EvPrint "")
     = EvPrint "   ⚠️  Warning: Could not update metadata: AccessDenied".
Proof. split; vm_compute; reflexivity. Qed.
